(** * ParquetLayer: the Parquet-to-GeoJSON ingestion pipeline

    A shallow embedding of the two [ParquetLayer] components of the
    viewers repository:

    - [Zstd]   : the variant of [components/viewers/map/ParquetLayer.tsx]
                 (direct decode, ZSTD fallback, schema-driven geometry
                 column discovery, multi-format geometry decoding);
    - [Wkx]    : the variant that parses WKB with [wkx] and decodes
                 binary text fields ([extractFeatures], [decodeUint8Array]).

    External libraries ([load] with [ParquetLoader], [wkbToGeojson],
    [JSON.parse], [parseFloat], [TextDecoder], the ZSTD codec, [fetch])
    are parameters of the model: a [Decoders] record for the pure ones,
    a [World] record for the outcomes of the asynchronous ones. *)

From Stdlib Require Import List String Ascii Bool Arith ZArith NArith Lia Floats Uint63.
Import ListNotations.
Local Open Scope string_scope.
Local Open Scope list_scope.

Set Implicit Arguments.
Set Warnings "-register-all,-inexact-float".

(** ** JavaScript values *)

Module Js.

(** A byte of a [Uint8Array], as a number below 256. *)
Definition byte := N.

(** The row values and geometries the component handles. A [Uint8Array]
    (or any other [ArrayBuffer] view) is [VBytes]; a plain object is an
    association list in insertion order. *)
Inductive Value : Type :=
| VUndefined
| VNull
| VBool (b : bool)
| VNumber (x : float)
| VString (s : string)
| VBytes (bs : list byte)
| VArray (xs : list Value)
| VObject (fields : list (string * Value)).

Definition Object := list (string * Value).

(** [!!v]: JavaScript's ToBoolean. *)
Definition truthy (v : Value) : bool :=
  match v with
  | VUndefined | VNull => false
  | VBool b => b
  | VNumber x => negb (PrimFloat.is_zero x || PrimFloat.is_nan x)
  | VString s => match s with EmptyString => false | String _ _ => true end
  | VBytes _ | VArray _ | VObject _ => true
  end.

(** [o[k]] on a plain object: the property's value, [undefined] when
    the object has no such property. *)
Fixpoint lookup (k : string) (o : Object) : Value :=
  match o with
  | [] => VUndefined
  | (k', v) :: rest => if String.eqb k' k then v else lookup k rest
  end.

Fixpoint hasKey (k : string) (o : Object) : bool :=
  match o with
  | [] => false
  | (k', _) :: rest => String.eqb k' k || hasKey k rest
  end.

(** [{...o, [k]: v}]: an existing property keeps its place and takes
    the new value, a new one is added last. *)
Fixpoint assign (k : string) (v : Value) (o : Object) : Object :=
  match o with
  | [] => [(k, v)]
  | (k', v') :: rest =>
      if String.eqb k' k then (k', v) :: rest else (k', v') :: assign k v rest
  end.

(** [v.k] for a value that is neither [null] nor [undefined]: strings,
    numbers, booleans, arrays and typed arrays have no [type],
    [coordinates], [latitude] or [longitude] property. *)
Definition get (v : Value) (k : string) : Value :=
  match v with
  | VObject o => lookup k o
  | _ => VUndefined
  end.

(** A thrown [Error], identified by its message. *)
Inductive Error : Type := Err (message : string).

(** The outcome of an expression that may throw, or of a promise that
    may reject. *)
Inductive Result (A : Type) : Type :=
| Ok (a : A)
| Throw (e : Error).
Arguments Ok {A} a.
Arguments Throw {A} e.

End Js.
Import Js.

(** ** Chunking of the compressed buffer ([decompressData]) *)

Module Chunks.

Definition CHUNK_SIZE : N := 1000000.

(** [a.subarray(b, e)] for [0 <= b], [0 <= e]: both ends are clamped to
    the length of [a]. *)
Definition subarray (a : list byte) (b e : N) : list byte :=
  firstn (N.to_nat (e - b)) (skipn (N.to_nat b) a).

(** The loop
    [for (let i = 0; i <= inputArray.length; i += size) chunks.push(...)],
    started at index [i]; [fuel] bounds the number of iterations. *)
Fixpoint chunkLoop (fuel : nat) (size : N) (inputArray : list byte) (i : N)
  : list (list byte) :=
  match fuel with
  | O => []
  | S fuel' =>
      if (i <=? N.of_nat (List.length inputArray))%N
      then subarray inputArray i (i + size)
             :: chunkLoop fuel' size inputArray (i + size)
      else []
  end.

(** The chunk sequence for a chunk size [size > 0]. Every iteration
    moves [i] forward by at least one, so [length inputArray + 1]
    iterations are enough for the loop to run to its end
    ([chunkLoop_fuel_enough] below). *)
Definition chunksOf (size : N) (inputArray : list byte) : list (list byte) :=
  chunkLoop (S (List.length inputArray)) size inputArray 0.

(** The [chunks] array [decompressData] hands to [decompressChunks]. *)
Definition chunks (input : list byte) : list (list byte) :=
  chunksOf CHUNK_SIZE input.

End Chunks.

(** ** The component of [components/viewers/map/ParquetLayer.tsx] *)

Module Zstd.

(** *** External decoders *)

(** The synchronous library calls of the row loop. [wkbToGeojson] and
    [JSON_parse] may throw; [parseFloat] never does (it yields [NaN]). *)
Record Decoders : Type := {
  wkbToGeojson : list byte -> Result Value;
  JSON_parse : string -> Result Value;
  parseFloat : Value -> float
}.

(** *** Decoded tables and features *)

Record Field : Type := { name : string }.
Record Schema : Type := { fields : list Field }.

(** What [load] resolves with: an array of rows, or a table object
    with a [data] array and, when the decoder reports one, a [schema]. *)
Inductive ParquetData : Type :=
| RowArray (rows : list Object)
| Table (schema : option Schema) (data : list Object).

(** [parquetData.schema]: an array has no such property. *)
Definition schemaOf (parquetData : ParquetData) : option Schema :=
  match parquetData with
  | RowArray _ => None
  | Table schema _ => schema
  end.

(** [Array.isArray(parquetData) ? parquetData : parquetData.data] *)
Definition rowsOf (parquetData : ParquetData) : list Object :=
  match parquetData with
  | RowArray rows => rows
  | Table _ data => data
  end.

(** [{type: 'Feature', geometry, properties}] *)
Record Feature : Type := { geometry : Value; properties : Object }.

(** [{type: 'FeatureCollection', features}] *)
Record FeatureCollection : Type := { features : list Feature }.

Definition NoGeometryError : Error :=
  Err "No geometry column or lat/lon columns found in Parquet data".
Definition EmptyResultError : Error :=
  Err "No valid features found in Parquet data".
(** [new codec.Streaming()] on an [undefined] codec. *)
Definition UndefinedCodecError : Error :=
  Err "TypeError: Cannot read properties of undefined (reading 'Streaming')".
(** [decompressResult.buffer] on a [null] result. *)
Definition NullResultError : Error :=
  Err "TypeError: Cannot read properties of null (reading 'buffer')".

(** *** Geometry column discovery *)

Definition geometryColumns : list string :=
  ["geometry"; "geom"; "the_geom"; "wkb_geometry"].

(** [schema.fields.some(f => f.name === colName)] *)
Definition hasField (schema : Schema) (colName : string) : bool :=
  existsb (fun f => String.eqb (name f) colName) (fields schema).

(** The loop over [geometryColumns] under [if (parquetData.schema)]:
    the first candidate, in list order, that names a schema field. *)
Definition findGeometryColumn (schema : option Schema) : option string :=
  match schema with
  | Some s => find (hasField s) geometryColumns
  | None => None
  end.

(** [parquetData.schema?.fields.some(f => f.name === colName)], as a
    condition: [undefined] without a schema. *)
Definition schemaHasField (schema : option Schema) (colName : string) : bool :=
  match schema with
  | Some s => hasField s colName
  | None => false
  end.

(** *** Per-row geometry decoding *)

Definition isHexDigit (c : ascii) : bool :=
  let n := nat_of_ascii c in
  ((48 <=? n)%nat && (n <=? 57)%nat) || ((97 <=? n)%nat && (n <=? 102)%nat)
  || ((65 <=? n)%nat && (n <=? 70)%nat).

Fixpoint allHexDigits (s : string) : bool :=
  match s with
  | EmptyString => true
  | String c rest => isHexDigit c && allHexDigits rest
  end.

(** [/^[0-9a-fA-F]+$/.test(s)] *)
Definition looksLikeHex (s : string) : bool :=
  match s with
  | EmptyString => false
  | String _ _ => allHexDigits s
  end.

Section RowLoop.

Variable D : Decoders.

Definition createPointFromCoordinates (lat lon : Value) : Value :=
  VObject [("type", VString "Point");
           ("coordinates",
            VArray [VNumber (parseFloat D lon); VNumber (parseFloat D lat)])].

(** Case 1: a typed array is handed to [wkbToGeojson]; a thrown parse
    error is logged and leaves [geometry] as it was. *)
Definition caseWkb (rawGeometry geometry : Value) : Value :=
  match rawGeometry with
  | VBytes bs =>
      match wkbToGeojson D bs with
      | Ok g => g
      | Throw _ => geometry
      end
  | _ => geometry
  end.

(** Case 2: a string that does not look like hex is parsed as JSON and
    taken when the parsed value has a [type] and [coordinates]. *)
Definition caseJson (rawGeometry geometry : Value) : Value :=
  match rawGeometry with
  | VString s =>
      if negb (truthy geometry) then
        if negb (looksLikeHex s) then
          match JSON_parse D s with
          | Ok parsed =>
              if truthy parsed && truthy (get parsed "type")
                 && truthy (get parsed "coordinates")
              then parsed else geometry
          | Throw _ => geometry
          end
        else geometry
      else geometry
  | _ => geometry
  end.

(** Case 3: the value is already a GeoJSON object. *)
Definition caseObject (rawGeometry geometry : Value) : Value :=
  if negb (truthy geometry) && truthy (get rawGeometry "type")
     && truthy (get rawGeometry "coordinates")
  then rawGeometry else geometry.

(** Fallback to the row's [latitude] and [longitude]. *)
Definition caseLatLon (row : Object) (geometry : Value) : Value :=
  if negb (truthy geometry) && truthy (lookup "latitude" row)
     && truthy (lookup "longitude" row)
  then createPointFromCoordinates (lookup "latitude" row) (lookup "longitude" row)
  else geometry.

(** The [geometry] variable at line 204, for a row whose raw geometry
    is truthy. *)
Definition decodeGeometry (row : Object) (rawGeometry : Value) : Value :=
  caseLatLon row (caseObject rawGeometry (caseJson rawGeometry (caseWkb rawGeometry VNull))).

(** One iteration of the loop over rows with a geometry column: the
    feature pushed, if any. Nothing in the body throws to the outer
    [catch]: the two library calls that may throw have a [catch] of
    their own. *)
Definition processRow (geometryColumn : string) (row : Object) : option Feature :=
  let rawGeometry := lookup geometryColumn row in
  if negb (truthy rawGeometry) then None
  else
    let geometry := decodeGeometry row rawGeometry in
    if truthy geometry
    then Some {| geometry := geometry;
                 properties := assign geometryColumn VUndefined row |}
    else None.

(** One iteration of the loop of the latitude/longitude branch. *)
Definition processLatLonRow (row : Object) : option Feature :=
  if truthy (lookup "latitude" row) && truthy (lookup "longitude" row)
  then Some {| geometry := createPointFromCoordinates (lookup "latitude" row)
                                                       (lookup "longitude" row);
               properties := row |}
  else None.

(** [for (const row of rows)], pushing onto [features]. *)
Fixpoint collect (body : Object -> option Feature) (rows : list Object)
  : list Feature :=
  match rows with
  | [] => []
  | row :: rest =>
      match body row with
      | Some f => f :: collect body rest
      | None => collect body rest
      end
  end.

(** Lines 122-219 of [processParquetData]: the [features] array, or the
    error thrown. *)
Definition buildFeatures (parquetData : ParquetData) : Result (list Feature) :=
  let schema := schemaOf parquetData in
  let built :=
    match findGeometryColumn schema with
    | None =>
        if schemaHasField schema "latitude" && schemaHasField schema "longitude"
        then Ok (collect processLatLonRow (rowsOf parquetData))
        else Throw NoGeometryError
    | Some geometryColumn =>
        Ok (collect (processRow geometryColumn) (rowsOf parquetData))
    end in
  match built with
  | Ok [] => Throw EmptyResultError
  | Ok fs => Ok fs
  | Throw e => Throw e
  end.

End RowLoop.

(** *** The asynchronous pipeline *)

(** What a run of the effect does that can be observed from outside:
    the calls to the external asynchronous services and the state it
    publishes ([setData], [setError]) or callbacks it fires. *)
Inductive Event : Type :=
| CallFetch
| CallArrayBuffer
| CallLoad (buffer : list byte)
| CallDecompressChunks (chunks : list (list byte))
| SetData (geojson : FeatureCollection)
| OnLoad
| SetError (e : Error)
| OnError (e : Error).

(** A computation that logs events and completes or throws. *)
Definition Action (A : Type) : Type := (list Event * Result A)%type.

Definition ret {A} (a : A) : Action A := ([], Ok a).
Definition throw {A} (e : Error) : Action A := ([], Throw e).
Definition emit (ev : Event) : Action unit := ([ev], Ok tt).
Definition lift {A} (r : Result A) : Action A := ([], r).

Definition bind {A B} (m : Action A) (k : A -> Action B) : Action B :=
  match m with
  | (t, Ok a) => let (t', r) := k a in (t ++ t', r)
  | (t, Throw e) => (t, Throw e)
  end.

(** [try { m } catch (err) { handler(err) }] *)
Definition tryCatch {A} (m : Action A) (handler : Error -> Action A) : Action A :=
  match m with
  | (t, Ok a) => (t, Ok a)
  | (t, Throw e) => let (t', r) := handler e in (t ++ t', r)
  end.

Notation "x <- m ;; k" := (bind m (fun x => k))
  (at level 61, m at next level, right associativity).
Notation "m ;;; k" := (bind m (fun _ => k))
  (at level 61, right associativity).

(** [if (callback) callback(...)] *)
Definition whenGiven (given : bool) (ev : Event) : Action unit :=
  if given then emit ev else ret tt.

(** The [await] expressions of [loadData], in program order. *)
Inductive AwaitPoint : Type :=
| AwFetch
| AwArrayBuffer
| AwDirectLoad
| AwDirectProcess
| AwPreloadZstd
| AwDecompressChunks
| AwSecondLoad
| AwSecondProcess.

Definition rank (p : AwaitPoint) : nat :=
  match p with
  | AwFetch => 0
  | AwArrayBuffer => 1
  | AwDirectLoad => 2
  | AwDirectProcess => 3
  | AwPreloadZstd => 4
  | AwDecompressChunks => 5
  | AwSecondLoad => 6
  | AwSecondProcess => 7
  end.

(** The value of [isMounted] once the await [p] has completed, when
    the effect's cleanup ran while the await [teardown] was outstanding
    ([None]: the component stays mounted). The cleanup is the only
    writer of [isMounted]. *)
Definition isMountedAfter (teardown : option AwaitPoint) (p : AwaitPoint) : bool :=
  match teardown with
  | None => true
  | Some q => (rank p <? rank q)%nat
  end.

(** [new codec.Streaming()] with its [decompressChunks]: it resolves
    with a [Uint8Array] whose [buffer] holds the given bytes, resolves
    with [null], or rejects. *)
Record Codec : Type := {
  decompressChunks : list (list byte) -> Result (option (list byte))
}.

(** [await fetch(url)], with its [arrayBuffer()]. *)
Record Response : Type := { arrayBuffer : Result (list byte) }.

(** The component's optional callbacks: whether each was supplied. *)
Record Props : Type := { onLoad : bool; onError : bool }.

(** The outcomes of everything [loadData] awaits, and the moment of
    teardown. [preloadZstd] is what this run's call of [preloadZstd]
    resolves with, [None] for [undefined] (see [Preload]). *)
Record World : Type := {
  fetch : Result Response;
  load : list byte -> Result ParquetData;
  preloadZstd : option Codec;
  teardown : option AwaitPoint
}.

Section Pipeline.

Variable D : Decoders.
Variable P : Props.
Variable W : World.

Definition processParquetData (isMounted : bool) (parquetData : ParquetData)
  : Action unit :=
  if negb isMounted then ret tt
  else
    features <- lift (buildFeatures D parquetData) ;;
    let geojson := {| features := features |} in
    if isMounted
    then emit (SetData geojson) ;;; whenGiven (onLoad P) OnLoad
    else ret tt.

(** [decompressData]: the codec, the chunks, the streaming call, and the
    [buffer] of its result. *)
Definition decompressData (input : list byte) : Action (list byte) :=
  match preloadZstd W with
  | None => throw UndefinedCodecError
  | Some codec =>
      let chunks := Chunks.chunks input in
      emit (CallDecompressChunks chunks) ;;;
      decompressResult <- lift (decompressChunks codec chunks) ;;
      match decompressResult with
      | Some buffer => ret buffer
      | None => throw NullResultError
      end
  end.

(** [load(buffer, ParquetLoader, {parquet: {shape: 'object-row-table'}})] *)
Definition loadParquet (buffer : list byte) : Action ParquetData :=
  emit (CallLoad buffer) ;;; lift (load W buffer).

(** The inner [try] of [loadData]: [true] when it reached [return]. *)
Definition directAttempt (arrayBuffer : list byte) : Action bool :=
  tryCatch
    (parquetData <- loadParquet arrayBuffer ;;
     processParquetData (isMountedAfter (teardown W) AwDirectLoad) parquetData ;;;
     ret true)
    (fun _ => ret false).

(** [loadData]. What [decompressData] returns is an [ArrayBuffer], an
    object, so the test [!decompressedData] of line 96 is false and
    its [throw] is never reached. *)
Definition loadData : Action unit :=
  tryCatch
    (emit CallFetch ;;;
     response <- lift (fetch W) ;;
     emit CallArrayBuffer ;;;
     arrayBuffer <- lift (arrayBuffer response) ;;
     done <- directAttempt arrayBuffer ;;
     if done then ret tt
     else
       decompressedData <- decompressData arrayBuffer ;;
       parquetData <- loadParquet decompressedData ;;
       processParquetData (isMountedAfter (teardown W) AwSecondLoad) parquetData)
    (fun err => emit (SetError err) ;;; whenGiven (onError P) (OnError err)).

End Pipeline.

(** The events of a run, and those among them that publish state or
    fire a callback. *)
Definition isPublication (ev : Event) : bool :=
  match ev with
  | SetData _ | OnLoad | SetError _ | OnError _ => true
  | _ => false
  end.

Definition isLoad (ev : Event) : bool :=
  match ev with CallLoad _ => true | _ => false end.

Definition isDecompress (ev : Event) : bool :=
  match ev with CallDecompressChunks _ => true | _ => false end.

Definition trace (D : Decoders) (P : Props) (W : World) : list Event :=
  fst (loadData D P W).

Definition published (D : Decoders) (P : Props) (W : World) : list Event :=
  filter isPublication (trace D P W).

End Zstd.

(** ** The module-level ZSTD codec ([zstdPromise], [zstd], [preloadZstd]) *)

Module Preload.

Section Machine.

(** The codec object [ZstdCodec.run] hands to its callback. *)
Variable Codec : Type.

(** The promise stored in [zstdPromise]. *)
Inductive Promise : Type :=
| Pending
| Resolved (codec : Codec).

(** A call of [preloadZstd]: suspended at [await zstdPromise], or
    completed with the value it returned ([None] is [undefined]). *)
Inductive Activation : Type :=
| Awaiting
| Returned (result : option Codec).

(** The two module-level variables, the number of times [ZstdCodec.run]
    was invoked, and the calls of [preloadZstd] made so far. *)
Record State : Type := {
  zstdPromise : option Promise;
  zstd : option Codec;
  runs : nat;
  calls : list (nat * Activation)
}.

Definition initial : State :=
  {| zstdPromise := None; zstd := None; runs := 0; calls := [] |}.

(** What the scheduler can do next: start a call of [preloadZstd] (it
    runs up to its first [await] or to its [return]), deliver the codec
    to the callback of [ZstdCodec.run], or resume a call suspended at
    [await zstdPromise]. *)
Inductive Step : Type :=
| Call (caller : nat)
| CodecReady (codec : Codec)
| Resume (caller : nat).

Fixpoint activation (caller : nat) (cs : list (nat * Activation))
  : option Activation :=
  match cs with
  | [] => None
  | (c, a) :: rest => if Nat.eqb c caller then Some a else activation caller rest
  end.

Fixpoint setActivation (caller : nat) (a : Activation)
  (cs : list (nat * Activation)) : list (nat * Activation) :=
  match cs with
  | [] => []
  | (c, a') :: rest =>
      if Nat.eqb c caller then (c, a) :: rest
      else (c, a') :: setActivation caller a rest
  end.

(** One scheduler step; [None] when the step is not enabled. *)
Definition step (st : State) (s : Step) : option State :=
  match s with
  | Call caller =>
      match activation caller (calls st) with
      | Some _ => None
      | None =>
          match zstdPromise st with
          | None =>
              (* if (!zstdPromise) { zstdPromise = new Promise(...); await ... *)
              Some {| zstdPromise := Some Pending;
                      zstd := zstd st;
                      runs := S (runs st);
                      calls := calls st ++ [(caller, Awaiting)] |}
          | Some _ =>
              (* return zstd; *)
              Some {| zstdPromise := zstdPromise st;
                      zstd := zstd st;
                      runs := runs st;
                      calls := calls st ++ [(caller, Returned (zstd st))] |}
          end
      end
  | CodecReady codec =>
      match zstdPromise st with
      | Some Pending =>
          Some {| zstdPromise := Some (Resolved codec);
                  zstd := zstd st;
                  runs := runs st;
                  calls := calls st |}
      | _ => None
      end
  | Resume caller =>
      match activation caller (calls st), zstdPromise st with
      | Some Awaiting, Some (Resolved codec) =>
          (* zstd = await zstdPromise; } return zstd; *)
          Some {| zstdPromise := zstdPromise st;
                  zstd := Some codec;
                  runs := runs st;
                  calls := setActivation caller (Returned (Some codec)) (calls st) |}
      | _, _ => None
      end
  end.

Fixpoint exec (st : State) (schedule : list Step) : option State :=
  match schedule with
  | [] => Some st
  | s :: rest =>
      match step st s with
      | Some st' => exec st' rest
      | None => None
      end
  end.

End Machine.

Arguments Pending {Codec}.
Arguments Awaiting {Codec}.
Arguments initial {Codec}.
Arguments Call {Codec} caller.
Arguments Resume {Codec} caller.

End Preload.

(** ** The component that parses WKB with [wkx] *)

Module Wkx.

(** The library calls of [extractFeatures]:
    [wkx.Geometry.parse(buffer).toGeoJSON()], which may throw,
    [new TextDecoder().decode(bytes)], [String(value)], and the bytes
    of [Buffer.from(text, 'binary')]. *)
Record Decoders : Type := {
  parseWkb : list byte -> Result Value;
  textDecode : list byte -> string;
  toString : Value -> string;
  binaryBytes : string -> list byte
}.

Record Feature : Type := { geometry : Value; properties : Object }.
Record FeatureCollection : Type := { features : list Feature }.

Section Extract.

Variable D : Decoders.

Definition decodeUint8Array (value : Value) : string :=
  match value with
  | VBytes bs => textDecode D bs
  | _ => toString D value
  end.

(** The geometry parsed from [row.geometry]; a parse error is thrown to
    the [catch] of the row. *)
Definition parseGeometry (row : Object) : Result Value :=
  let geometry := lookup "geometry" row in
  if truthy geometry then
    match geometry with
    | VBytes bs => parseWkb D bs
    | VString s => parseWkb D (binaryBytes D s)
    | _ => Ok VNull
    end
  else Ok VNull.

(** [Object.fromEntries(Object.entries(row).filter(...).map(...))] *)
Definition decodeProperties (row : Object) : Object :=
  map (fun kv => (fst kv, VString (decodeUint8Array (snd kv))))
      (filter (fun kv => negb (String.eqb (fst kv) "geometry")) row).

(** The callback of [rows.map]: a feature, or [null]. *)
Definition extractFeature (row : Object) : option Feature :=
  match parseGeometry row with
  | Ok geometry =>
      if negb (truthy geometry) then None
      else Some {| geometry := geometry; properties := decodeProperties row |}
  | Throw _ => None
  end.

(** [rows.map(...).filter(Boolean)] *)
Fixpoint extractFeatures (rows : list Object) : list Feature :=
  match rows with
  | [] => []
  | row :: rest =>
      match extractFeature row with
      | Some f => f :: extractFeatures rest
      | None => extractFeatures rest
      end
  end.

Definition processParquetData (rows : list Object) : FeatureCollection :=
  {| features := extractFeatures rows |}.

End Extract.

End Wkx.

(** ** Sample decoders and inputs

    Concrete stand-ins for the external libraries, used where a
    statement is exercised on a concrete input. *)

Module Samples.

Definition digitValue (c : ascii) : option Z :=
  let n := nat_of_ascii c in
  if (48 <=? n)%nat && (n <=? 57)%nat then Some (Z.of_nat (n - 48)) else None.

(** The leading decimal digits of [s] appended to [acc]; how many were
    read; the rest of [s]. *)
Fixpoint readDigits (s : string) (acc : Z) (count : nat) : Z * nat * string :=
  match s with
  | EmptyString => (acc, count, s)
  | String c rest =>
      match digitValue c with
      | Some d => readDigits rest (10 * acc + d)%Z (S count)
      | None => (acc, count, s)
      end
  end.

Definition floatOfZ (z : Z) : float := PrimFloat.of_uint63 (Uint63.of_Z z).

(** [parseFloat] on a plain decimal literal (optional sign, digits,
    optional fraction) of up to 15 digits, where the quotient of the
    two exactly represented integers is the nearest double; [NaN] when
    there is no digit. *)
Definition parseDecimal (s : string) : float :=
  let (negative, body) :=
    match s with
    | String "-"%char rest => (true, rest)
    | String "+"%char rest => (false, rest)
    | _ => (false, s)
    end in
  let '(whole, n1, rest) := readDigits body 0%Z 0 in
  let '(mantissa, n2) :=
    match rest with
    | String "."%char frac => let '(m, n, _) := readDigits frac whole 0 in (m, n)
    | _ => (whole, 0)
    end in
  if (n1 + n2 =? 0)%nat then PrimFloat.nan
  else
    let x := PrimFloat.div (floatOfZ mantissa) (floatOfZ (10 ^ Z.of_nat n2)) in
    if negative then PrimFloat.opp x else x.

(** [parseFloat]: a number is returned as it is, a text is read as a
    decimal literal, anything else gives [NaN]. *)
Definition parseFloat (v : Value) : float :=
  match v with
  | VNumber x => x
  | VString s => parseDecimal s
  | _ => PrimFloat.nan
  end.

Definition point (x y : float) : Value :=
  VObject [("type", VString "Point");
           ("coordinates", VArray [VNumber x; VNumber y])].

(** Decoders that accept whatever they are given: every typed array
    and every text decodes to a point at the origin. *)
Definition acceptAll : Zstd.Decoders :=
  {| Zstd.wkbToGeojson := fun _ => Ok (point 0 0);
     Zstd.JSON_parse := fun _ => Ok (point 0 0);
     Zstd.parseFloat := parseFloat |}.

(** Decoders that reject whatever they are given. *)
Definition rejectAll : Zstd.Decoders :=
  {| Zstd.wkbToGeojson := fun _ => Throw (Err "WKB parse error");
     Zstd.JSON_parse := fun _ => Throw (Err "SyntaxError");
     Zstd.parseFloat := parseFloat |}.

Definition asciiText (bs : list byte) : string :=
  string_of_list_ascii (map ascii_of_N bs).

(** Decoders for the [wkx] component: ASCII text decoding, and
    [String(value)] on the values that occur in the examples. *)
Definition wkxDecoders : Wkx.Decoders :=
  {| Wkx.parseWkb := fun _ => Ok (point 0 0);
     Wkx.textDecode := asciiText;
     Wkx.toString := fun v =>
       match v with
       | VString s => s
       | VNull => "null"
       | VUndefined => "undefined"
       | VBool true => "true"
       | VBool false => "false"
       | _ => "[object Object]"
       end;
     Wkx.binaryBytes := fun s => map N_of_ascii (list_ascii_of_string s) |}.

Definition schemaWith (names : list string) : Zstd.Schema :=
  {| Zstd.fields := map (fun n => {| Zstd.name := n |}) names |}.

(** A row with no geometry value and textual coordinates. *)
Definition latLonRow : Object :=
  [("latitude", VString "40.7"); ("longitude", VString "-74.0")].

(** The same row in a table whose schema has a geometry column. *)
Definition absentGeometryTable : Zstd.ParquetData :=
  Zstd.Table (Some (schemaWith ["geometry"; "latitude"; "longitude"])) [latLonRow].

(** The same row in a table whose schema has no geometry column. *)
Definition latLonTable : Zstd.ParquetData :=
  Zstd.Table (Some (schemaWith ["latitude"; "longitude"])) [latLonRow].

(** A row whose geometry is hexadecimal text, with nothing else. *)
Definition hexRow : Object := [("geometry", VString "0101000000"); ("id", VString "a")].

(** A row whose geometry is text that is neither hex nor a number,
    with truthy coordinates. *)
Definition textRow : Object :=
  [("geom", VString "POINT (1 2)"); ("latitude", VNumber 40.7); ("longitude", VNumber (-74.0))].

(** A row whose geometry is a GeoJSON object with an empty coordinate
    sequence. *)
Definition emptyPoint : Value :=
  VObject [("type", VString "Point"); ("coordinates", VArray [])].

Definition emptyPointRow : Object :=
  [("geometry", emptyPoint); ("name", VBytes [104; 105]%N)].

Definition emptyPointTable : Zstd.ParquetData :=
  Zstd.Table (Some (schemaWith ["geometry"; "name"])) [emptyPointRow].

(** A row whose geometry is a GeoJSON point, with a binary text field. *)
Definition pointRow : Object :=
  [("geometry", point 1 2); ("name", VBytes [104; 105]%N)].

(** Rows with WKB bytes and coordinates, decoded without a schema. *)
Definition wkbRow : Object :=
  [("geometry", VBytes [1; 1; 0; 0; 0]%N); ("latitude", VNumber 1); ("longitude", VNumber 2)].

Definition schemalessTable : Zstd.ParquetData := Zstd.Table None [wkbRow].

(** A table with neither a geometry column nor coordinates. *)
Definition plainTable : Zstd.ParquetData :=
  Zstd.Table (Some (schemaWith ["id"])) [[("id", VString "a")]].

(** A row of the [wkx] component: WKB bytes and a binary text field. *)
Definition wkxRow : Object :=
  [("geometry", VBytes [1; 1; 0; 0; 0]%N); ("name", VBytes [104; 105]%N)].

Definition bothCallbacks : Zstd.Props :=
  {| Zstd.onLoad := true; Zstd.onError := true |}.

(** A file that decodes directly to [table]; the codec rejects its
    bytes with [zerr]. *)
Definition uncompressedWorld (buffer : list byte) (table : Zstd.ParquetData)
  (zerr : Error) : Zstd.World :=
  {| Zstd.fetch := Ok {| Zstd.arrayBuffer := Ok buffer |};
     Zstd.load := fun _ => Ok table;
     Zstd.preloadZstd :=
       Some {| Zstd.decompressChunks := fun _ => Throw zerr |};
     Zstd.teardown := None |}.

(** A file that decodes directly to [table]; the codec turns its bytes
    into [out], which decodes to [table] as well. *)
Definition decompressibleWorld (table : Zstd.ParquetData) (out : list byte)
  : Zstd.World :=
  {| Zstd.fetch := Ok {| Zstd.arrayBuffer := Ok [80; 65; 82; 49]%N |};
     Zstd.load := fun _ => Ok table;
     Zstd.preloadZstd :=
       Some {| Zstd.decompressChunks := fun _ => Ok (Some out) |};
     Zstd.teardown := None |}.

(** The fetch rejects with [e] after the component was torn down. *)
Definition tornDownFetchWorld (e : Error) (load : list byte -> Result Zstd.ParquetData)
  (codec : option Zstd.Codec) : Zstd.World :=
  {| Zstd.fetch := Throw e;
     Zstd.load := load;
     Zstd.preloadZstd := codec;
     Zstd.teardown := Some Zstd.AwFetch |}.

End Samples.

(** ** Vocabulary of the statements *)

(** A value that carries both a type tag and coordinates, as the
    checks [v.type && v.coordinates] see it. *)
Definition tagged (g : Value) : Prop :=
  truthy (get g "type") = true /\ truthy (get g "coordinates") = true.

Definition nonEmptySequence (v : Value) : bool :=
  match v with
  | VArray (_ :: _) => true
  | _ => false
  end.

(** A geometry with a type tag and a non-empty coordinate sequence. *)
Definition structurallyValid (g : Value) : bool :=
  truthy g && truthy (get g "type") && nonEmptySequence (get g "coordinates").

(** The point [createPointFromCoordinates] builds. *)
Definition pointOf (D : Zstd.Decoders) (lat lon : Value) : Value :=
  VObject [("type", VString "Point");
           ("coordinates",
            VArray [VNumber (Zstd.parseFloat D lon); VNumber (Zstd.parseFloat D lat)])].

(** The [geometry] variable after cases 1 to 3 of the row loop. *)
Definition explicitGeometry (D : Zstd.Decoders) (rawGeometry : Value) : Value :=
  Zstd.caseObject rawGeometry
    (Zstd.caseJson D rawGeometry (Zstd.caseWkb D rawGeometry VNull)).

(** [ZstdCodec.run] is invoked exactly when [zstdPromise] is first
    set, so at most once. *)
Definition initialisedOnce {Codec : Type} (st : Preload.State Codec) : Prop :=
  match Preload.zstdPromise st with
  | None => Preload.runs st = 0
  | Some _ => Preload.runs st = 1
  end.


Definition isBinary (v : Value) : bool :=
  match v with VBytes _ => true | _ => false end.

(** ** The rendered state of [components/viewers/map/ParquetLayer.tsx] *)

Module View.

(** The [data] and [error] state variables; both start as [null]. *)
Record State : Type := {
  data : option Zstd.FeatureCollection;
  error : option Error
}.

Definition initial : State := {| data := None; error := None |}.

(** The effect of one event of a run on the state: only [setData] and
    [setError] write it. *)
Definition applyEvent (st : State) (ev : Zstd.Event) : State :=
  match ev with
  | Zstd.SetData geojson => {| data := Some geojson; error := error st |}
  | Zstd.SetError e => {| data := data st; error := Some e |}
  | _ => st
  end.

Definition applyEvents (st : State) (evs : list Zstd.Event) : State :=
  fold_left applyEvent evs st.

(** What the component returns: the error line with [error.message],
    the loading line, or the map with a GeoJSON layer over [data]. *)
Inductive Rendered : Type :=
| ErrorLine (message : string)
| LoadingLine
| MapWithLayer (data : Zstd.FeatureCollection).

Definition render (st : State) : Rendered :=
  match error st with
  | Some (Err message) => ErrorLine message
  | None =>
      match data st with
      | None => LoadingLine
      | Some geojson => MapWithLayer geojson
      end
  end.

End View.

(** ** Bounds and loading in the [wkx] component *)

Module WkxLoad.

(** [Math.min] and [Math.max] of two numbers: [NaN] when either is
    [NaN], and the negative zero is below the positive one. *)
Definition Math_min (a b : float) : float :=
  if PrimFloat.is_nan a || PrimFloat.is_nan b then PrimFloat.nan
  else if PrimFloat.ltb a b then a
  else if PrimFloat.ltb b a then b
  else if PrimFloat.get_sign a then a else b.

Definition Math_max (a b : float) : float :=
  if PrimFloat.is_nan a || PrimFloat.is_nan b then PrimFloat.nan
  else if PrimFloat.ltb a b then b
  else if PrimFloat.ltb b a then a
  else if PrimFloat.get_sign a then b else a.

(** The global [isFinite] on a number. *)
Definition isFinite (x : float) : bool :=
  negb (PrimFloat.is_nan x || PrimFloat.is_infinity x).

(** [[minX, minY, maxX, maxY]] *)
Record Bounds : Type := { minX : float; minY : float; maxX : float; maxY : float }.

Definition NullMemberError : Error :=
  Err "TypeError: Cannot read properties of null or undefined".
Definition NotAFunctionError : Error :=
  Err "TypeError: forEach is not a function".
Definition NoDataError : Error := Err "No data returned from ParquetLoader".

(** [v.k], which throws on [null] and [undefined]. *)
Definition member (v : Value) (k : string) : Result Value :=
  match v with
  | VNull | VUndefined => Throw NullMemberError
  | _ => Ok (get v k)
  end.

Definition byteNumber (b : byte) : Value :=
  VNumber (PrimFloat.of_uint63 (Uint63.of_Z (Z.of_N b))).

Definition indexKey (i : nat) : string :=
  match i with
  | 0 => "0"
  | _ => "1"
  end.

(** [v[i]] for [i] 0 or 1: an element of an array or of a typed array,
    a character of a string, a property of an object; it throws on
    [null] and [undefined]. *)
Definition index (v : Value) (i : nat) : Result Value :=
  match v with
  | VNull | VUndefined => Throw NullMemberError
  | VArray xs => Ok (nth i xs VUndefined)
  | VBytes bs =>
      Ok (match nth_error bs i with
          | Some b => byteNumber b
          | None => VUndefined
          end)
  | VString s =>
      Ok (match String.get i s with
          | Some c => VString (String c EmptyString)
          | None => VUndefined
          end)
  | VObject o => Ok (lookup (indexKey i) o)
  | VBool _ | VNumber _ => Ok VUndefined
  end.

(** The elements [v.forEach] visits: arrays and typed arrays have a
    [forEach]; on anything else the call throws. *)
Definition forEachElements (v : Value) : Result (list Value) :=
  match v with
  | VArray xs => Ok xs
  | VBytes bs => Ok (map byteNumber bs)
  | VNull | VUndefined => Throw NullMemberError
  | _ => Throw NotAFunctionError
  end.

(** [feature.geometry.type === 'Polygon'] *)
Definition isPolygon (geometry : Value) : bool :=
  match get geometry "type" with
  | VString s => String.eqb s "Polygon"
  | _ => false
  end.

Section Bounds.

(** The conversion [Math.min] and [Math.max] apply to an argument that
    is not a number. *)
Variable toNumber : Value -> float.

(** The callback of [coords[0].forEach]. *)
Definition widen (b : Bounds) (coord : Value) : Result Bounds :=
  match index coord 0, index coord 1 with
  | Ok x, Ok y =>
      Ok {| minX := Math_min (minX b) (toNumber x);
            minY := Math_min (minY b) (toNumber y);
            maxX := Math_max (maxX b) (toNumber x);
            maxY := Math_max (maxY b) (toNumber y) |}
  | Throw e, _ => Throw e
  | _, Throw e => Throw e
  end.

Fixpoint widenAll (b : Bounds) (ring : list Value) : Result Bounds :=
  match ring with
  | [] => Ok b
  | coord :: rest =>
      match widen b coord with
      | Ok b' => widenAll b' rest
      | Throw e => Throw e
      end
  end.

(** The callback of [features.forEach]. *)
Definition visit (b : Bounds) (feature : Wkx.Feature) : Result Bounds :=
  match member (Wkx.geometry feature) "coordinates" with
  | Throw e => Throw e
  | Ok coords =>
      if isPolygon (Wkx.geometry feature) then
        match index coords 0 with
        | Throw e => Throw e
        | Ok exterior =>
            match forEachElements exterior with
            | Throw e => Throw e
            | Ok ring => widenAll b ring
            end
        end
      else Ok b
  end.

Fixpoint visitAll (b : Bounds) (features : list Wkx.Feature) : Result Bounds :=
  match features with
  | [] => Ok b
  | feature :: rest =>
      match visit b feature with
      | Ok b' => visitAll b' rest
      | Throw e => Throw e
      end
  end.

Definition unbounded : Bounds :=
  {| minX := PrimFloat.infinity; minY := PrimFloat.infinity;
     maxX := PrimFloat.neg_infinity; maxY := PrimFloat.neg_infinity |}.

(** [getBounds]: the bounds, [None] for [null], or the error thrown. *)
Definition getBounds (features : list Wkx.Feature) : Result (option Bounds) :=
  match visitAll unbounded features with
  | Ok b => Ok (if isFinite (minX b) then Some b else None)
  | Throw e => Throw e
  end.

End Bounds.

(** What [load] resolves with: an array of rows, or something that is
    not an array ([null] and [undefined] included). *)
Inductive Loaded : Type :=
| Rows (rows : list Object)
| NotAnArray.

(** The outcome of [load], and [isMounted] once it has settled. *)
Record World : Type := { load : Result Loaded; isMounted : bool }.

Record Props : Type := { onLoad : bool; onError : bool }.

Inductive Event : Type :=
| SetViewState (longitude latitude : float)
| SetData (features : Wkx.FeatureCollection)
| OnLoad (features : Wkx.FeatureCollection)
| SetError (e : Error)
| OnError (e : Error).

Section Load.

Variable D : Wkx.Decoders.
Variable toNumber : Value -> float.
Variable P : Props.
Variable W : World.

(** The [catch] of [loadParquetData]. *)
Definition reportFailure (err : Error) : list Event :=
  if isMounted W
  then SetError err :: (if onError P then [OnError err] else [])
  else [].

(** [setViewState({...viewState, longitude, latitude, zoom: 8})] when
    there are bounds. *)
Definition recentre (bounds : option Bounds) : list Event :=
  match bounds with
  | Some b =>
      [SetViewState (PrimFloat.div (PrimFloat.add (minX b) (maxX b)) 2)
                    (PrimFloat.div (PrimFloat.add (minY b) (maxY b)) 2)]
  | None => []
  end.

(** [loadParquetData]: the state it sets and the callbacks it fires. *)
Definition loadParquetData : list Event :=
  match load W with
  | Throw err => reportFailure err
  | Ok NotAnArray => reportFailure NoDataError
  | Ok (Rows rows) =>
      if isMounted W then
        let features := Wkx.processParquetData D rows in
        let bounds :=
          match Wkx.features features with
          | [] => Ok None
          | _ :: _ => getBounds toNumber (Wkx.features features)
          end in
        match bounds with
        | Throw err => reportFailure err
        | Ok b =>
            recentre b ++ [SetData features]
              ++ (if onLoad P then [OnLoad features] else [])
        end
      else []
  end.

End Load.

End WkxLoad.

(** ** Vocabulary of the further statements *)

(** The chunk the loop of [decompressData] pushes in its [k]-th
    iteration after index [i], for a chunk size [size]. *)
Definition chunkAt (size : N) (a : list byte) (i : N) (k : nat) : list byte :=
  Chunks.subarray a (i + N.of_nat k * size) (i + N.of_nat k * size + size).

(** A geometry on which a member access does not throw. *)
Definition notNullish (v : Value) : bool :=
  match v with
  | VNull | VUndefined => false
  | _ => true
  end.

Definition isSetData (ev : Zstd.Event) : bool :=
  match ev with Zstd.SetData _ => true | _ => false end.

(** The [zstd] variable holds the codec the promise resolved with, and
    a call that returned a codec returned the one [zstd] holds. *)
Definition consistent {Codec : Type} (st : Preload.State Codec) : Prop :=
  (forall c, Preload.zstd st = Some c ->
             Preload.zstdPromise st = Some (Preload.Resolved c))
  /\ (forall caller c,
         Preload.activation caller (Preload.calls st)
         = Some (Preload.Returned (Some c)) ->
         Preload.zstd st = Some c).

(** Sample inputs of the [wkx] component. *)
Module WkxSamples.

Definition bothCallbacks : WkxLoad.Props :=
  {| WkxLoad.onLoad := true; WkxLoad.onError := true |}.

(** A file of two rows without geometry, loaded by a mounted component. *)
Definition noGeometry : WkxLoad.World :=
  {| WkxLoad.load := Ok (WkxLoad.Rows [[("id", VString "a")]; Samples.latLonRow]);
     WkxLoad.isMounted := true |}.


(** A triangle with corners (0, 0), (2, 0) and (2, 3). *)
Definition triangle : Value :=
  VObject [("type", VString "Polygon");
           ("coordinates",
            VArray [VArray [VArray [VNumber 0; VNumber 0];
                            VArray [VNumber 2; VNumber 0];
                            VArray [VNumber 2; VNumber 3];
                            VArray [VNumber 0; VNumber 0]]])].

End WkxSamples.

(** Sample worlds of a run of [loadData]. *)
Module Worlds.

(** A file whose bytes decode directly to the table of coordinates. *)
Definition direct : Zstd.World :=
  {| Zstd.fetch := Ok {| Zstd.arrayBuffer := Ok [80; 65; 82; 49]%N |};
     Zstd.load := fun _ => Ok Samples.latLonTable;
     Zstd.preloadZstd := None;
     Zstd.teardown := None |}.


(** A file that is neither Parquet nor ZSTD: no bytes decode, and the
    codec rejects the chunks. *)
Definition corrupt : Zstd.World :=
  {| Zstd.fetch := Ok {| Zstd.arrayBuffer := Ok [60; 104; 116; 109; 108]%N |};
     Zstd.load := fun _ => Throw (Err "Invalid Parquet file");
     Zstd.preloadZstd :=
       Some {| Zstd.decompressChunks := fun _ => Throw (Err "Unknown frame descriptor") |};
     Zstd.teardown := None |}.

End Worlds.

(** * Properties *)

(** ** Chunking *)

Section ChunkFacts.

Import Chunks.

Variable size : N.
Hypothesis size_pos : (0 < size)%N.



(** Past the end of the array the loop stops at once. *)
Lemma chunkLoop_past_end (fuel : nat) (a : list byte) (i : N) :
  (N.of_nat (List.length a) < i)%N -> chunkLoop fuel size a i = [].
Proof.
  intros Hi. destruct fuel as [|fuel]; simpl; [reflexivity|].
  destruct (N.leb_spec i (N.of_nat (List.length a))); [lia | reflexivity].
Qed.




(** The loop of [chunksOf] is not cut short by its fuel: more fuel
    yields the same chunks. *)
Lemma chunkLoop_fuel_enough (fuel : nat) :
  forall (fuel' : nat) (a : list byte) (i : N),
    (List.length a - N.to_nat i < fuel)%nat -> (fuel <= fuel')%nat ->
    chunkLoop fuel' size a i = chunkLoop fuel size a i.
Proof.
  induction fuel as [|fuel IH]; intros fuel' a i Hfuel Hle; [lia|].
  destruct fuel' as [|fuel']; [lia|]. simpl.
  destruct (N.leb_spec i (N.of_nat (List.length a))) as [Hi|Hi]; [|reflexivity].
  f_equal.
  destruct (N.leb_spec (i + size) (N.of_nat (List.length a))) as [Hin|Hout].
  - apply IH; lia.
  - now rewrite !chunkLoop_past_end by lia.
Qed.



End ChunkFacts.

Lemma CHUNK_SIZE_pos : (0 < Chunks.CHUNK_SIZE)%N.
Proof. reflexivity. Qed.

Example chunksOf_exact_multiple :
  Chunks.chunksOf 2 [1; 2; 3; 4]%N = [[1; 2]; [3; 4]; []]%N.
Proof. reflexivity. Qed.

Example chunksOf_remainder :
  Chunks.chunksOf 2 [1; 2; 3]%N = [[1; 2]; [3]]%N.
Proof. reflexivity. Qed.

Example chunks_empty_buffer : Chunks.chunks [] = [[]].
Proof. reflexivity. Qed.


(** ** The chunks handed to the codec *)

(** Case analysis on whatever a [match] of the goal still waits for. *)
Ltac destruct_scrutinee :=
  match goal with
  | |- context [match ?x with _ => _ end] =>
      lazymatch x with
      | context [match _ with _ => _ end] => fail
      | _ => destruct x eqn:?
      end
  end.

Ltac run_pipeline :=
  unfold Zstd.trace, Zstd.published, Zstd.loadData, Zstd.directAttempt,
    Zstd.loadParquet, Zstd.decompressData, Zstd.processParquetData,
    Zstd.whenGiven, Zstd.tryCatch, Zstd.bind, Zstd.lift, Zstd.emit, Zstd.ret,
    Zstd.throw;
  simpl;
  repeat (destruct_scrutinee; simpl).




(** [decompressData] hands exactly these chunks to [decompressChunks],
    once, when the codec is there. *)
Lemma decompressData_passes_chunks (W : Zstd.World) (codec : Zstd.Codec)
  (input : list byte) :
  Zstd.preloadZstd W = Some codec ->
  fst (Zstd.decompressData W input) = [Zstd.CallDecompressChunks (Chunks.chunks input)].
Proof.
  intros Hcodec. unfold Zstd.decompressData. rewrite Hcodec.
  unfold Zstd.bind, Zstd.emit, Zstd.lift, Zstd.ret, Zstd.throw.
  destruct (Zstd.decompressChunks codec (Chunks.chunks input)) as [[out|]|e];
    reflexivity.
Qed.

(** ** Objects *)

Lemma lookup_assign_same (k : string) (v : Value) (o : Object) :
  lookup k (assign k v o) = v.
Proof.
  induction o as [|[k' v'] o IH]; simpl.
  - now rewrite String.eqb_refl.
  - destruct (String.eqb k' k) eqn:E; simpl; rewrite E; [reflexivity | exact IH].
Qed.

Lemma lookup_assign_other (k k' : string) (v : Value) (o : Object) :
  k' <> k -> lookup k' (assign k v o) = lookup k' o.
Proof.
  intros Hne. induction o as [|[k0 v0] o IH]; simpl.
  - destruct (String.eqb_spec k k'); [congruence | reflexivity].
  - destruct (String.eqb_spec k0 k) as [->|Hk]; simpl.
    + destruct (String.eqb_spec k k'); [congruence | reflexivity].
    + destruct (String.eqb k0 k'); [reflexivity | exact IH].
Qed.

(** ** The hexadecimal test *)

Example looksLikeHex_wkb : Zstd.looksLikeHex "0101000000A0b1" = true.
Proof. reflexivity. Qed.

Example looksLikeHex_json : Zstd.looksLikeHex "{}" = false.
Proof. reflexivity. Qed.

Example looksLikeHex_trailing_newline :
  Zstd.looksLikeHex (String "a" (String (ascii_of_nat 10) EmptyString)) = false.
Proof. reflexivity. Qed.

Lemma looksLikeHex_truthy (s : string) :
  Zstd.looksLikeHex s = true -> truthy (VString s) = true.
Proof. destruct s; simpl; [discriminate | reflexivity]. Qed.

(** ** Per-row geometry decoding *)

Section RowFacts.

Variable D : Zstd.Decoders.

Lemma decodeGeometry_unfold (row : Object) (rawGeometry : Value) :
  Zstd.decodeGeometry D row rawGeometry
  = Zstd.caseLatLon D row (explicitGeometry D rawGeometry).
Proof. reflexivity. Qed.

(** Hexadecimal text goes through cases 1 to 3 untouched. *)
Lemma hex_explicitGeometry (s : string) :
  Zstd.looksLikeHex s = true -> explicitGeometry D (VString s) = VNull.
Proof.
  intros Hhex. unfold explicitGeometry, Zstd.caseObject, Zstd.caseJson, Zstd.caseWkb.
  simpl. rewrite Hhex. reflexivity.
Qed.

Lemma caseLatLon_falsy (row : Object) (g : Value) :
  truthy g = false ->
  truthy (lookup "latitude" row) && truthy (lookup "longitude" row) = false ->
  Zstd.caseLatLon D row g = g.
Proof.
  intros Hg Hll. unfold Zstd.caseLatLon. rewrite Hg. simpl.
  rewrite Hll. reflexivity.
Qed.

Lemma caseLatLon_point (row : Object) (g : Value) :
  truthy g = false ->
  truthy (lookup "latitude" row) = true ->
  truthy (lookup "longitude" row) = true ->
  Zstd.caseLatLon D row g
  = pointOf D (lookup "latitude" row) (lookup "longitude" row).
Proof.
  intros Hg Hlat Hlon. unfold Zstd.caseLatLon. rewrite Hg, Hlat, Hlon.
  reflexivity.
Qed.

Lemma caseLatLon_keeps (row : Object) (g : Value) :
  truthy g = true -> Zstd.caseLatLon D row g = g.
Proof. intros Hg. unfold Zstd.caseLatLon. rewrite Hg. reflexivity. Qed.

End RowFacts.

(** C9: for a row whose raw geometry is text matching the pure
    hexadecimal pattern, the JSON step leaves [geometry] as it found
    it and the outcome of the row is the same whatever [JSON.parse]
    would answer; cases 1 to 3 produce nothing (text is never handed
    to the WKB decoder), and when the row has no truthy latitude and
    longitude, in particular when it has neither field, the decoding
    ends with [null] and the row yields no feature: nothing is
    thrown. *)
Theorem hex_text_skips_json_and_drops
  (D : Zstd.Decoders) (geometryColumn : string) (row : Object) (s : string)
  (Hraw : lookup geometryColumn row = VString s)
  (Hhex : Zstd.looksLikeHex s = true) :
  (forall geometry, Zstd.caseJson D (VString s) geometry = geometry)
  /\ (forall parse : string -> Result Value,
         Zstd.processRow
           {| Zstd.wkbToGeojson := Zstd.wkbToGeojson D;
              Zstd.JSON_parse := parse;
              Zstd.parseFloat := Zstd.parseFloat D |} geometryColumn row
         = Zstd.processRow D geometryColumn row)
  /\ (truthy (lookup "latitude" row) && truthy (lookup "longitude" row) = false ->
      Zstd.decodeGeometry D row (VString s) = VNull
      /\ Zstd.processRow D geometryColumn row = None).
Proof.
  split; [|split].
  - intros geometry. unfold Zstd.caseJson. rewrite Hhex. simpl.
    now destruct (truthy geometry).
  - intros parse. unfold Zstd.processRow. rewrite Hraw.
    rewrite !decodeGeometry_unfold, !hex_explicitGeometry by exact Hhex.
    reflexivity.
  - intros Hll.
    assert (Hnull : Zstd.decodeGeometry D row (VString s) = VNull).
    { rewrite decodeGeometry_unfold, hex_explicitGeometry by exact Hhex.
      apply caseLatLon_falsy; [reflexivity | exact Hll]. }
    split; [exact Hnull|].
    unfold Zstd.processRow. rewrite Hraw, (looksLikeHex_truthy _ Hhex), Hnull.
    reflexivity.
Qed.

(** The hexadecimal row of [Samples], which has neither latitude nor
    longitude, with decoders that would accept the text as JSON. *)
Lemma hex_text_skips_json_and_drops_witness :
  Zstd.JSON_parse Samples.acceptAll "0101000000" = Ok (Samples.point 0 0)
  /\ lookup "latitude" Samples.hexRow = VUndefined
  /\ lookup "longitude" Samples.hexRow = VUndefined
  /\ Zstd.decodeGeometry Samples.acceptAll Samples.hexRow (VString "0101000000") = VNull
  /\ Zstd.processRow Samples.acceptAll "geometry" Samples.hexRow = None.
Proof.
  split; [reflexivity|]. split; [reflexivity|]. split; [reflexivity|].
  apply (proj2 (proj2 (@hex_text_skips_json_and_drops Samples.acceptAll "geometry"
                         Samples.hexRow "0101000000" eq_refl eq_refl))).
  reflexivity.
Defined.

(** ** The latitude/longitude fallback *)

Example parseFloat_latitude : Samples.parseFloat (VString "40.7") = 40.7%float.
Proof. reflexivity. Qed.

Example parseFloat_longitude : Samples.parseFloat (VString "-74.0") = (-74.0)%float.
Proof. reflexivity. Qed.

(** The row of the specification's example, in a table without a
    geometry column. *)
Example latLonTable_point :
  Zstd.buildFeatures Samples.rejectAll Samples.latLonTable
  = Ok [{| Zstd.geometry := Samples.point (-74.0) 40.7;
           Zstd.properties := Samples.latLonRow |}].
Proof. reflexivity. Qed.

(** C5, as the claim states it, fails: the row of the example (no
    geometry value, latitude "40.7", longitude "-74.0"), in a table
    whose schema has a geometry column, yields no feature, and the
    table yields no feature collection. *)
Lemma absent_geometry_row_is_skipped :
  lookup "geometry" Samples.latLonRow = VUndefined
  /\ Samples.parseFloat (lookup "latitude" Samples.latLonRow) = 40.7%float
  /\ Samples.parseFloat (lookup "longitude" Samples.latLonRow) = (-74.0)%float
  /\ (forall D : Zstd.Decoders,
        Zstd.findGeometryColumn (Zstd.schemaOf Samples.absentGeometryTable)
        = Some "geometry"
        /\ Zstd.processRow D "geometry" Samples.latLonRow = None
        /\ Zstd.buildFeatures D Samples.absentGeometryTable
           = Throw Zstd.EmptyResultError).
Proof.
  repeat split; reflexivity.
Qed.

(** C5, amended: in the loop over rows with a geometry column, a row
    whose geometry value is truthy and for which cases 1 to 3 produce
    nothing yields, when its latitude and longitude are truthy, a
    Point feature with coordinates [parseFloat(longitude),
    parseFloat(latitude)]; a row whose geometry value is falsy
    (absent) is skipped. In the loop of a table that has latitude and
    longitude columns and no geometry column, every row with truthy
    latitude and longitude yields such a Point, with the row as its
    properties; the row with latitude "40.7" and longitude "-74.0"
    yields the Point of [parseFloat("-74.0"), parseFloat("40.7")]. *)
Theorem latlon_point_when_geometry_present
  (D : Zstd.Decoders) (geometryColumn : string) (row : Object) :
  (truthy (lookup geometryColumn row) = true ->
   truthy (explicitGeometry D (lookup geometryColumn row)) = false ->
   truthy (lookup "latitude" row) = true ->
   truthy (lookup "longitude" row) = true ->
   Zstd.processRow D geometryColumn row
   = Some {| Zstd.geometry :=
               VObject [("type", VString "Point");
                        ("coordinates",
                         VArray [VNumber (Zstd.parseFloat D (lookup "longitude" row));
                                 VNumber (Zstd.parseFloat D (lookup "latitude" row))])];
             Zstd.properties := assign geometryColumn VUndefined row |})
  /\ (truthy (lookup geometryColumn row) = false ->
      Zstd.processRow D geometryColumn row = None)
  /\ (truthy (lookup "latitude" row) = true ->
      truthy (lookup "longitude" row) = true ->
      Zstd.processLatLonRow D row
      = Some {| Zstd.geometry :=
                  VObject [("type", VString "Point");
                           ("coordinates",
                            VArray [VNumber (Zstd.parseFloat D (lookup "longitude" row));
                                    VNumber (Zstd.parseFloat D (lookup "latitude" row))])];
                Zstd.properties := row |})
  /\ Zstd.buildFeatures D Samples.latLonTable
     = Ok [{| Zstd.geometry :=
                VObject [("type", VString "Point");
                         ("coordinates",
                          VArray [VNumber (Zstd.parseFloat D (VString "-74.0"));
                                  VNumber (Zstd.parseFloat D (VString "40.7"))])];
              Zstd.properties := Samples.latLonRow |}].
Proof.
  split; [|split; [|split]].
  - intros Hraw Hexp Hlat Hlon. unfold Zstd.processRow.
    rewrite Hraw. simpl negb. cbv iota.
    rewrite decodeGeometry_unfold, (caseLatLon_point D row _ Hexp Hlat Hlon).
    reflexivity.
  - intros Hraw. unfold Zstd.processRow. rewrite Hraw. reflexivity.
  - intros Hlat Hlon. unfold Zstd.processLatLonRow. rewrite Hlat, Hlon. reflexivity.
  - reflexivity.
Qed.

(** A row with unparseable geometry text and numeric coordinates, a
    row without a geometry value, and the same rows in the
    latitude/longitude loop. *)
Lemma latlon_point_when_geometry_present_witness :
  Zstd.processRow Samples.rejectAll "geom" Samples.textRow
  = Some {| Zstd.geometry := Samples.point (-74.0) 40.7;
            Zstd.properties :=
              [("geom", VUndefined); ("latitude", VNumber 40.7);
               ("longitude", VNumber (-74.0))] |}
  /\ Zstd.processRow Samples.rejectAll "geometry" Samples.latLonRow = None
  /\ Zstd.processLatLonRow Samples.rejectAll Samples.latLonRow
     = Some {| Zstd.geometry := Samples.point (-74.0) 40.7;
               Zstd.properties := Samples.latLonRow |}.
Proof.
  split; [|split].
  - apply (proj1 (latlon_point_when_geometry_present Samples.rejectAll "geom"
                    Samples.textRow)); reflexivity.
  - apply (proj1 (proj2 (latlon_point_when_geometry_present Samples.rejectAll
                           "geometry" Samples.latLonRow))); reflexivity.
  - apply (proj1 (proj2 (proj2 (latlon_point_when_geometry_present Samples.rejectAll
                                  "geometry" Samples.latLonRow)))); reflexivity.
Defined.

(** ** Geometry of the emitted features *)

Section GeometryFacts.

Variable D : Zstd.Decoders.

(** Where a geometry that cases 1 to 3 produced came from. *)
Lemma explicitGeometry_origin (rawGeometry : Value) :
  truthy (explicitGeometry D rawGeometry) = true ->
  (exists bs, rawGeometry = VBytes bs
              /\ Zstd.wkbToGeojson D bs = Ok (explicitGeometry D rawGeometry))
  \/ tagged (explicitGeometry D rawGeometry).
Proof.
  unfold explicitGeometry, Zstd.caseObject, Zstd.caseJson, Zstd.caseWkb.
  destruct rawGeometry as [| |b|x|s|bs|xs|o]; simpl; try discriminate.
  - (* text *)
    destruct (Zstd.looksLikeHex s); simpl; [discriminate|].
    destruct (Zstd.JSON_parse D s) as [parsed|e]; simpl; [|discriminate].
    destruct (truthy parsed) eqn:Hp; simpl; [|discriminate].
    destruct (truthy (get parsed "type")) eqn:Ht; simpl; [|discriminate].
    destruct (truthy (get parsed "coordinates")) eqn:Hc; simpl; [|discriminate].
    rewrite !andb_false_r. intros _. right. split; assumption.
  - (* typed array *)
    destruct (Zstd.wkbToGeojson D bs) as [g|e] eqn:Hwkb; simpl.
    + rewrite !andb_false_r. intros _. left. exists bs. split; [reflexivity | exact Hwkb].
    + discriminate.
  - (* object *)
    destruct (truthy (lookup "type" o)) eqn:Ht; simpl; [|discriminate].
    destruct (truthy (lookup "coordinates" o)) eqn:Hc; simpl; [|discriminate].
    intros _. right. split; assumption.
Qed.

Lemma pointOf_valid (lat lon : Value) :
  structurallyValid (pointOf D lat lon) = true.
Proof. reflexivity. Qed.

(** The geometry of a feature pushed by the loop over rows with a
    geometry column. *)
Lemma processRow_geometry (geometryColumn : string) (row : Object) (f : Zstd.Feature) :
  Zstd.processRow D geometryColumn row = Some f ->
  truthy (Zstd.geometry f) = true
  /\ ((exists bs, Zstd.wkbToGeojson D bs = Ok (Zstd.geometry f))
      \/ tagged (Zstd.geometry f)
      \/ structurallyValid (Zstd.geometry f) = true).
Proof.
  unfold Zstd.processRow.
  destruct (truthy (lookup geometryColumn row)); simpl; [|discriminate].
  destruct (truthy (Zstd.decodeGeometry D row (lookup geometryColumn row))) eqn:Hg;
    [|discriminate].
  intros [= <-]. simpl. split; [exact Hg|].
  rewrite decodeGeometry_unfold in *.
  destruct (truthy (explicitGeometry D (lookup geometryColumn row))) eqn:He.
  - rewrite caseLatLon_keeps by exact He.
    destruct (explicitGeometry_origin _ He) as [(bs & _ & Hw)|Ht].
    + left. now exists bs.
    + right. left. exact Ht.
  - right. right. revert Hg. unfold Zstd.caseLatLon. rewrite He. simpl.
    destruct (truthy (lookup "latitude" row) && truthy (lookup "longitude" row)).
    + intros _. reflexivity.
    + rewrite He. discriminate.
Qed.

Lemma processLatLonRow_geometry (row : Object) (f : Zstd.Feature) :
  Zstd.processLatLonRow D row = Some f ->
  structurallyValid (Zstd.geometry f) = true.
Proof.
  unfold Zstd.processLatLonRow.
  destruct (truthy (lookup "latitude" row) && truthy (lookup "longitude" row));
    [|discriminate].
  intros [= <-]. reflexivity.
Qed.

(** A property of every feature a loop body can push holds of every
    feature the loop collects. *)
Lemma collect_Forall (body : Object -> option Zstd.Feature) (Q : Zstd.Feature -> Prop)
  (rows : list Object) :
  (forall row f, In row rows -> body row = Some f -> Q f) ->
  Forall Q (Zstd.collect body rows).
Proof.
  induction rows as [|row rows IH]; intros Hbody; simpl; [constructor|].
  destruct (body row) as [f|] eqn:Hf.
  - constructor.
    + apply (Hbody row f); [now left | exact Hf].
    + apply IH. intros r g Hin. apply Hbody. now right.
  - apply IH. intros r g Hin. apply Hbody. now right.
Qed.

(** What [buildFeatures] returns, when it returns: the features its
    loop collected. *)
Lemma buildFeatures_Ok (parquetData : Zstd.ParquetData) (fs : list Zstd.Feature) :
  Zstd.buildFeatures D parquetData = Ok fs ->
  fs <> []
  /\ ((exists geometryColumn,
         Zstd.findGeometryColumn (Zstd.schemaOf parquetData) = Some geometryColumn
         /\ fs = Zstd.collect (Zstd.processRow D geometryColumn) (Zstd.rowsOf parquetData))
      \/ (Zstd.findGeometryColumn (Zstd.schemaOf parquetData) = None
          /\ fs = Zstd.collect (Zstd.processLatLonRow D) (Zstd.rowsOf parquetData))).
Proof.
  unfold Zstd.buildFeatures.
  destruct (Zstd.findGeometryColumn (Zstd.schemaOf parquetData)) as [col|].
  - destruct (Zstd.collect (Zstd.processRow D col) (Zstd.rowsOf parquetData))
      as [|f rest] eqn:Hc; [discriminate|].
    intros [= <-]. split; [discriminate|]. left. exists col. now split.
  - destruct (Zstd.schemaHasField (Zstd.schemaOf parquetData) "latitude"
              && Zstd.schemaHasField (Zstd.schemaOf parquetData) "longitude");
      [|discriminate].
    destruct (Zstd.collect (Zstd.processLatLonRow D) (Zstd.rowsOf parquetData))
      as [|f rest] eqn:Hc; [discriminate|].
    intros [= <-]. split; [discriminate|]. right. now split.
Qed.

End GeometryFacts.

(** C6, as the claim states it, fails: a row whose geometry is the
    object [{type: "Point", coordinates: []}] yields a feature, and
    the coordinate sequence of that feature's geometry is empty. *)
Lemma empty_coordinates_feature_is_emitted :
  structurallyValid Samples.emptyPoint = false
  /\ get Samples.emptyPoint "coordinates" = VArray []
  /\ (forall D : Zstd.Decoders,
        Zstd.buildFeatures D Samples.emptyPointTable
        = Ok [{| Zstd.geometry := Samples.emptyPoint;
                 Zstd.properties :=
                   [("geometry", VUndefined); ("name", VBytes [104; 105]%N)] |}]).
Proof.
  repeat split; reflexivity.
Qed.

(** C6, amended: every feature of the output has a truthy (non-null)
    geometry, which is the value [wkbToGeojson] returned, or carries a
    truthy type tag and truthy coordinates (an empty sequence
    included), or is a Point of two coordinates built from latitude
    and longitude; and a row for which no step resolves a geometry
    yields no feature. *)
Theorem features_carry_resolved_geometry (D : Zstd.Decoders) :
  (forall parquetData fs,
      Zstd.buildFeatures D parquetData = Ok fs ->
      Forall (fun f =>
                truthy (Zstd.geometry f) = true
                /\ ((exists bs, Zstd.wkbToGeojson D bs = Ok (Zstd.geometry f))
                    \/ tagged (Zstd.geometry f)
                    \/ structurallyValid (Zstd.geometry f) = true)) fs)
  /\ (forall geometryColumn row,
         truthy (Zstd.decodeGeometry D row (lookup geometryColumn row)) = false ->
         Zstd.processRow D geometryColumn row = None)
  /\ (forall row,
         truthy (lookup "latitude" row) && truthy (lookup "longitude" row) = false ->
         Zstd.processLatLonRow D row = None).
Proof.
  split; [|split].
  - intros parquetData fs Hfs.
    destruct (buildFeatures_Ok D parquetData Hfs) as [_ [(col & _ & ->)| [_ ->]]].
    + apply collect_Forall. intros row f _ Hf.
      exact (processRow_geometry D col row Hf).
    + apply collect_Forall. intros row f _ Hf.
      pose proof (processLatLonRow_geometry D row Hf) as Hv.
      split; [|right; right; exact Hv].
      unfold structurallyValid in Hv.
      destruct (truthy (Zstd.geometry f)); [reflexivity | discriminate].
  - intros col row Hg. unfold Zstd.processRow.
    destruct (truthy (lookup col row)); simpl; [|reflexivity].
    rewrite Hg. reflexivity.
  - intros row Hll. unfold Zstd.processLatLonRow. rewrite Hll. reflexivity.
Qed.

(** The table with the empty Point, the hexadecimal row and the row
    without coordinates. *)
Lemma features_carry_resolved_geometry_witness :
  Forall (fun f =>
            truthy (Zstd.geometry f) = true
            /\ ((exists bs, Zstd.wkbToGeojson Samples.rejectAll bs = Ok (Zstd.geometry f))
                \/ tagged (Zstd.geometry f)
                \/ structurallyValid (Zstd.geometry f) = true))
         [{| Zstd.geometry := Samples.emptyPoint;
             Zstd.properties :=
               [("geometry", VUndefined); ("name", VBytes [104; 105]%N)] |}]
  /\ Zstd.processRow Samples.rejectAll "geometry" Samples.hexRow = None
  /\ Zstd.processLatLonRow Samples.rejectAll Samples.hexRow = None.
Proof.
  split; [|split].
  - apply (proj1 (features_carry_resolved_geometry Samples.rejectAll)
             Samples.emptyPointTable). reflexivity.
  - apply (proj1 (proj2 (features_carry_resolved_geometry Samples.rejectAll))).
    reflexivity.
  - apply (proj2 (proj2 (features_carry_resolved_geometry Samples.rejectAll))).
    reflexivity.
Defined.

(** ** Geometry source resolution without a schema *)

Lemma findGeometryColumn_priority :
  Zstd.findGeometryColumn (Some (Samples.schemaWith ["wkb_geometry"; "geom"]))
  = Some "geom".
Proof. reflexivity. Qed.

(** C1, as the claim states it, fails: a decoded result without a
    schema whose first row has a geometry key (and latitude and
    longitude keys) fails with NoGeometryError, as a table object and
    as a plain array of rows alike. *)
Lemma schemaless_rows_are_not_inspected :
  hasKey "geometry" Samples.wkbRow = true
  /\ hasKey "latitude" Samples.wkbRow = true
  /\ hasKey "longitude" Samples.wkbRow = true
  /\ Zstd.schemaOf Samples.schemalessTable = None
  /\ (forall D : Zstd.Decoders,
        Zstd.buildFeatures D Samples.schemalessTable = Throw Zstd.NoGeometryError
        /\ Zstd.buildFeatures D (Zstd.RowArray [Samples.wkbRow])
           = Throw Zstd.NoGeometryError).
Proof.
  repeat split; reflexivity.
Qed.

(** C1, amended: for every decoded result that carries no schema, no
    row is inspected: the feature construction fails with
    NoGeometryError whatever the rows hold, and so does
    [processParquetData] of a mounted component, publishing nothing. *)
Theorem schemaless_result_fails_with_NoGeometryError
  (D : Zstd.Decoders) (P : Zstd.Props) (parquetData : Zstd.ParquetData)
  (Hschema : Zstd.schemaOf parquetData = None) :
  Zstd.buildFeatures D parquetData = Throw Zstd.NoGeometryError
  /\ Zstd.processParquetData D P true parquetData = ([], Throw Zstd.NoGeometryError).
Proof.
  assert (H : Zstd.buildFeatures D parquetData = Throw Zstd.NoGeometryError).
  { unfold Zstd.buildFeatures. rewrite Hschema. reflexivity. }
  split; [exact H|].
  unfold Zstd.processParquetData. simpl. rewrite H. reflexivity.
Qed.

Lemma schemaless_result_fails_with_NoGeometryError_witness :
  Zstd.buildFeatures Samples.acceptAll Samples.schemalessTable
  = Throw Zstd.NoGeometryError
  /\ Zstd.processParquetData Samples.acceptAll
       {| Zstd.onLoad := true; Zstd.onError := true |} true Samples.schemalessTable
     = ([], Throw Zstd.NoGeometryError).
Proof.
  apply (@schemaless_result_fails_with_NoGeometryError Samples.acceptAll
           {| Zstd.onLoad := true; Zstd.onError := true |} Samples.schemalessTable).
  reflexivity.
Defined.

(** ** Properties of the emitted features *)

Section PropertyFacts.

Variable D : Wkx.Decoders.

Lemma decodeProperties_no_geometry (row : Object) :
  lookup "geometry" (Wkx.decodeProperties D row) = VUndefined.
Proof.
  unfold Wkx.decodeProperties.
  induction row as [|[k v] row IH]; simpl; [reflexivity|].
  destruct (String.eqb k "geometry") eqn:E; simpl; [exact IH|].
  rewrite E. exact IH.
Qed.

Lemma decodeProperties_lookup (row : Object) (k : string) :
  k <> "geometry" ->
  hasKey k row = true ->
  lookup k (Wkx.decodeProperties D row)
  = VString (Wkx.decodeUint8Array D (lookup k row)).
Proof.
  intros Hk. unfold Wkx.decodeProperties.
  induction row as [|[k0 v0] row IH]; simpl; [discriminate|].
  destruct (String.eqb_spec k0 k) as [->|Hne]; simpl.
  - intros _. destruct (String.eqb_spec k "geometry"); [contradiction|].
    simpl. now rewrite String.eqb_refl.
  - intros Hin. destruct (String.eqb k0 "geometry"); simpl.
    + exact (IH Hin).
    + destruct (String.eqb_spec k0 k); [contradiction | exact (IH Hin)].
Qed.

Lemma decodeProperties_textual (row : Object) :
  Forall (fun kv => isBinary (snd kv) = false) (Wkx.decodeProperties D row).
Proof.
  unfold Wkx.decodeProperties. apply Forall_forall. intros kv Hin.
  apply in_map_iff in Hin. destruct Hin as (kv0 & <- & _). reflexivity.
Qed.

Lemma extractFeature_properties (row : Object) (f : Wkx.Feature) :
  Wkx.extractFeature D row = Some f ->
  Wkx.properties f = Wkx.decodeProperties D row.
Proof.
  unfold Wkx.extractFeature.
  destruct (Wkx.parseGeometry D row) as [g|e]; [|discriminate].
  destruct (truthy g); simpl; [|discriminate].
  intros [= <-]. reflexivity.
Qed.

End PropertyFacts.

(** C2, as the claim states it, fails: in the component with the ZSTD
    fallback, the feature of a row with a binary [name] field carries
    the bytes of [name] in its properties, undecoded, and keeps the
    geometry key, with the value [undefined]. *)
Lemma binary_field_is_not_decoded :
  isBinary (lookup "name" Samples.pointRow) = true
  /\ (forall D : Zstd.Decoders,
        exists f,
          Zstd.processRow D "geometry" Samples.pointRow = Some f
          /\ lookup "name" (Zstd.properties f) = VBytes [104; 105]%N
          /\ hasKey "geometry" (Zstd.properties f) = true).
Proof.
  split; [reflexivity|].
  intros D. eexists. repeat split; reflexivity.
Qed.

(** C2, amended: in [extractFeatures] the properties of an emitted
    feature are the row's entries other than [geometry], in order,
    each value passed through [decodeUint8Array] (a binary value is
    decoded as UTF-8 text, any other value is converted with
    [String]), so no property is binary. In the component with the
    ZSTD fallback the properties of a feature of the geometry loop are
    the row with the value of the geometry column replaced by
    [undefined] and every other field as it is in the row (a binary
    value is not decoded); the properties of a feature of the
    latitude/longitude loop are the row itself. *)
Theorem properties_of_emitted_features :
  (forall (D : Wkx.Decoders) (row : Object) (f : Wkx.Feature),
      Wkx.extractFeature D row = Some f ->
      Wkx.properties f
      = map (fun kv => (fst kv, VString (Wkx.decodeUint8Array D (snd kv))))
            (filter (fun kv => negb (String.eqb (fst kv) "geometry")) row)
      /\ lookup "geometry" (Wkx.properties f) = VUndefined
      /\ Forall (fun kv => isBinary (snd kv) = false) (Wkx.properties f)
      /\ (forall k bs, k <> "geometry" -> hasKey k row = true ->
                       lookup k row = VBytes bs ->
                       lookup k (Wkx.properties f) = VString (Wkx.textDecode D bs)))
  /\ (forall (D : Zstd.Decoders) (geometryColumn : string) (row : Object)
             (f : Zstd.Feature),
         Zstd.processRow D geometryColumn row = Some f ->
         Zstd.properties f = assign geometryColumn VUndefined row
         /\ lookup geometryColumn (Zstd.properties f) = VUndefined
         /\ (forall k, k <> geometryColumn ->
                       lookup k (Zstd.properties f) = lookup k row))
  /\ (forall (D : Zstd.Decoders) (row : Object) (f : Zstd.Feature),
         Zstd.processLatLonRow D row = Some f -> Zstd.properties f = row).
Proof.
  split; [|split].
  - intros D row f Hf. rewrite (extractFeature_properties D row Hf).
    split; [reflexivity|].
    split; [apply decodeProperties_no_geometry|].
    split; [apply decodeProperties_textual|].
    intros k bs Hk Hin Hv.
    rewrite decodeProperties_lookup by assumption. rewrite Hv. reflexivity.
  - intros D col row f. unfold Zstd.processRow.
    destruct (truthy (lookup col row)); simpl; [|discriminate].
    destruct (truthy (Zstd.decodeGeometry D row (lookup col row))); [|discriminate].
    intros [= <-]. simpl.
    split; [reflexivity|].
    split; [apply lookup_assign_same|].
    intros k Hk. now apply lookup_assign_other.
  - intros D row f. unfold Zstd.processLatLonRow.
    destruct (truthy (lookup "latitude" row) && truthy (lookup "longitude" row));
      [|discriminate].
    intros [= <-]. reflexivity.
Qed.

(** The row with a binary [name] in each component, and the row of
    coordinates in the latitude/longitude loop. *)
Lemma properties_of_emitted_features_witness :
  lookup "name"
    (Wkx.properties {| Wkx.geometry := Samples.point 0 0;
                       Wkx.properties := [("name", VString "hi")] |})
  = VString "hi"
  /\ Zstd.properties
       {| Zstd.geometry := Samples.point 1 2;
          Zstd.properties := [("geometry", VUndefined); ("name", VBytes [104; 105]%N)] |}
     = assign "geometry" VUndefined Samples.pointRow
  /\ Zstd.properties
       {| Zstd.geometry := Samples.point (-74.0) 40.7;
          Zstd.properties := Samples.latLonRow |}
     = Samples.latLonRow.
Proof.
  split; [|split].
  - apply (proj2 (proj2 (proj2
             (proj1 properties_of_emitted_features Samples.wkxDecoders
                Samples.wkxRow _ eq_refl))) "name" [104; 105]%N).
    + discriminate.
    + reflexivity.
    + reflexivity.
  - apply (proj1 (proj2 properties_of_emitted_features) Samples.rejectAll "geometry"
             Samples.pointRow). reflexivity.
  - apply (proj2 (proj2 properties_of_emitted_features) Samples.rejectAll
             Samples.latLonRow). reflexivity.
Defined.

(** ** The pipeline: decode attempts and the error channel *)

Section PipelineFacts.

Variable D : Zstd.Decoders.
Variable P : Zstd.Props.
Variable W : Zstd.World.

(** X1: whatever the outcomes of the fetch, the decoder and the codec
    are, a run decodes at most twice and decompresses at most once. *)
Lemma loadData_at_most_two_loads :
  (List.length (filter Zstd.isLoad (Zstd.trace D P W)) <= 2)%nat
  /\ (List.length (filter Zstd.isDecompress (Zstd.trace D P W)) <= 1)%nat.
Proof.
  run_pipeline; split; lia.
Qed.

(** The first decode is of the fetched bytes. *)
Lemma loadData_first_load (buffer : list byte) :
  Zstd.fetch W = Ok {| Zstd.arrayBuffer := Ok buffer |} ->
  exists rest, filter Zstd.isLoad (Zstd.trace D P W) = Zstd.CallLoad buffer :: rest.
Proof.
  intros Hfetch. unfold Zstd.trace, Zstd.loadData. rewrite Hfetch.
  run_pipeline; eexists; reflexivity.
Qed.

(** When the direct decode fails and the codec rejects the chunks, the
    codec's error is the one reported, and no second decode is made. *)
Lemma decompression_error_is_reported (buffer : list byte) (e1 e2 : Error)
  (codec : Zstd.Codec) :
  Zstd.fetch W = Ok {| Zstd.arrayBuffer := Ok buffer |} ->
  Zstd.load W buffer = Throw e1 ->
  Zstd.preloadZstd W = Some codec ->
  Zstd.decompressChunks codec (Chunks.chunks buffer) = Throw e2 ->
  Zstd.trace D P W
  = [Zstd.CallFetch; Zstd.CallArrayBuffer; Zstd.CallLoad buffer;
     Zstd.CallDecompressChunks (Chunks.chunks buffer); Zstd.SetError e2]
    ++ (if Zstd.onError P then [Zstd.OnError e2] else []).
Proof.
  intros Hfetch Hload Hcodec Hz.
  unfold Zstd.trace, Zstd.loadData, Zstd.directAttempt, Zstd.loadParquet,
    Zstd.decompressData.
  rewrite Hfetch. simpl. rewrite Hload, Hcodec. simpl. rewrite Hz. simpl.
  unfold Zstd.whenGiven. destruct (Zstd.onError P); reflexivity.
Qed.

(** When the direct decode fails and decompression succeeds, the error
    of the second decode is the one reported. *)
Lemma second_decode_error_is_reported (buffer out : list byte) (e1 e2 : Error)
  (codec : Zstd.Codec) :
  Zstd.fetch W = Ok {| Zstd.arrayBuffer := Ok buffer |} ->
  Zstd.load W buffer = Throw e1 ->
  Zstd.preloadZstd W = Some codec ->
  Zstd.decompressChunks codec (Chunks.chunks buffer) = Ok (Some out) ->
  Zstd.load W out = Throw e2 ->
  Zstd.trace D P W
  = [Zstd.CallFetch; Zstd.CallArrayBuffer; Zstd.CallLoad buffer;
     Zstd.CallDecompressChunks (Chunks.chunks buffer); Zstd.CallLoad out;
     Zstd.SetError e2]
    ++ (if Zstd.onError P then [Zstd.OnError e2] else []).
Proof.
  intros Hfetch Hload Hcodec Hz Hload2.
  unfold Zstd.trace, Zstd.loadData, Zstd.directAttempt, Zstd.loadParquet,
    Zstd.decompressData.
  rewrite Hfetch. simpl. rewrite Hload, Hcodec. simpl. rewrite Hz. simpl.
  rewrite Hload2. simpl.
  unfold Zstd.whenGiven. destruct (Zstd.onError P); reflexivity.
Qed.

(** When the direct decode fails and the decompressed bytes decode to a
    table from which no feature collection can be built, the error of
    the feature construction is the one reported. *)
Lemma second_attempt_geometry_error_is_reported (buffer out : list byte)
  (e1 e2 : Error) (codec : Zstd.Codec) (parquetData : Zstd.ParquetData) :
  Zstd.fetch W = Ok {| Zstd.arrayBuffer := Ok buffer |} ->
  Zstd.load W buffer = Throw e1 ->
  Zstd.preloadZstd W = Some codec ->
  Zstd.decompressChunks codec (Chunks.chunks buffer) = Ok (Some out) ->
  Zstd.load W out = Ok parquetData ->
  Zstd.isMountedAfter (Zstd.teardown W) Zstd.AwSecondLoad = true ->
  Zstd.buildFeatures D parquetData = Throw e2 ->
  Zstd.published D P W
  = Zstd.SetError e2 :: (if Zstd.onError P then [Zstd.OnError e2] else []).
Proof.
  intros Hfetch Hload Hcodec Hz Hload2 Hmounted Hbuild.
  unfold Zstd.published, Zstd.trace, Zstd.loadData, Zstd.directAttempt,
    Zstd.loadParquet, Zstd.decompressData, Zstd.processParquetData.
  rewrite Hfetch. simpl. rewrite Hload, Hcodec. simpl. rewrite Hz. simpl.
  rewrite Hload2, Hmounted. simpl. rewrite Hbuild. simpl.
  unfold Zstd.whenGiven. destruct (Zstd.onError P); reflexivity.
Qed.

(** Whenever the direct decode succeeds and the feature construction on
    its rows throws, the bytes are handed to the codec all the same. *)
Lemma processing_failure_triggers_decompression (buffer : list byte)
  (parquetData : Zstd.ParquetData) (e : Error) (codec : Zstd.Codec) :
  Zstd.fetch W = Ok {| Zstd.arrayBuffer := Ok buffer |} ->
  Zstd.load W buffer = Ok parquetData ->
  Zstd.isMountedAfter (Zstd.teardown W) Zstd.AwDirectLoad = true ->
  Zstd.buildFeatures D parquetData = Throw e ->
  Zstd.preloadZstd W = Some codec ->
  In (Zstd.CallDecompressChunks (Chunks.chunks buffer)) (Zstd.trace D P W).
Proof.
  intros Hfetch Hload Hmounted Hbuild Hcodec.
  unfold Zstd.trace, Zstd.loadData, Zstd.directAttempt, Zstd.loadParquet,
    Zstd.decompressData, Zstd.processParquetData.
  rewrite Hfetch. simpl. rewrite Hload, Hmounted. simpl. rewrite Hbuild, Hcodec.
  simpl. unfold Zstd.bind, Zstd.tryCatch, Zstd.lift.
  repeat (destruct_scrutinee; simpl); auto 6.
Qed.

(** X2: a feature collection is published only by a component that is
    still mounted when the direct decode has completed: after a
    teardown during the fetch, the reading of its body or the direct
    decode, no run calls [setData]. *)
Lemma success_is_published_only_when_mounted (geojson : Zstd.FeatureCollection) :
  In (Zstd.SetData geojson) (Zstd.trace D P W) ->
  Zstd.isMountedAfter (Zstd.teardown W) Zstd.AwDirectLoad = true.
Proof.
  unfold Zstd.trace, Zstd.loadData, Zstd.directAttempt, Zstd.processParquetData.
  destruct (Zstd.teardown W) as [[]|]; try reflexivity;
    run_pipeline; simpl; intuition discriminate.
Qed.

End PipelineFacts.

(** C3: the component is torn down while the fetch is outstanding and
    the fetch then rejects. [isMounted] is false by then, and the
    [catch] of [loadData] still sets the error state and fires
    [onError]. *)
Theorem teardown_during_fetch_still_reports_failure
  (D : Zstd.Decoders) (e : Error) (load : list byte -> Result Zstd.ParquetData)
  (codec : option Zstd.Codec) :
  Zstd.isMountedAfter
    (Zstd.teardown (Samples.tornDownFetchWorld e load codec)) Zstd.AwFetch = false
  /\ Zstd.published D Samples.bothCallbacks (Samples.tornDownFetchWorld e load codec)
     = [Zstd.SetError e; Zstd.OnError e].
Proof.
  split; reflexivity.
Qed.

(** C7: a file decodes directly to rows that have neither a geometry
    column nor latitude and longitude (or to rows none of which yields
    a feature). The error of the feature construction is caught by the
    inner [catch] of [loadData]; the bytes are handed to the codec,
    and the error reported is the codec's. *)
Theorem direct_geometry_errors_are_replaced
  (D : Zstd.Decoders) (buffer : list byte) (zerr : Error) :
  (Zstd.load (Samples.uncompressedWorld buffer Samples.plainTable zerr) buffer
   = Ok Samples.plainTable
   /\ Zstd.buildFeatures D Samples.plainTable = Throw Zstd.NoGeometryError
   /\ Zstd.published D Samples.bothCallbacks
        (Samples.uncompressedWorld buffer Samples.plainTable zerr)
      = [Zstd.SetError zerr; Zstd.OnError zerr])
  /\ (Zstd.load (Samples.uncompressedWorld buffer Samples.absentGeometryTable zerr) buffer
      = Ok Samples.absentGeometryTable
      /\ Zstd.buildFeatures D Samples.absentGeometryTable = Throw Zstd.EmptyResultError
      /\ Zstd.published D Samples.bothCallbacks
           (Samples.uncompressedWorld buffer Samples.absentGeometryTable zerr)
         = [Zstd.SetError zerr; Zstd.OnError zerr]).
Proof.
  repeat split; reflexivity.
Qed.

(** C8: the direct decode of the fetched bytes succeeds, the feature
    construction on its rows throws, and the run goes on to
    decompress the bytes and to decode a second time. *)
Theorem decompression_follows_successful_decode
  (D : Zstd.Decoders) (out : list byte) :
  Zstd.load (Samples.decompressibleWorld Samples.plainTable out) [80; 65; 82; 49]%N
  = Ok Samples.plainTable
  /\ Zstd.trace D Samples.bothCallbacks
       (Samples.decompressibleWorld Samples.plainTable out)
     = [Zstd.CallFetch; Zstd.CallArrayBuffer;
        Zstd.CallLoad [80; 65; 82; 49]%N;
        Zstd.CallDecompressChunks [[80; 65; 82; 49]%N];
        Zstd.CallLoad out;
        Zstd.SetError Zstd.NoGeometryError; Zstd.OnError Zstd.NoGeometryError].
Proof.
  split; reflexivity.
Qed.

(** ** The module-level codec *)

Section PreloadFacts.

Variable Codec : Type.

Lemma step_initialisedOnce (st st' : Preload.State Codec) (s : Preload.Step Codec) :
  initialisedOnce st -> Preload.step st s = Some st' -> initialisedOnce st'.
Proof.
  unfold initialisedOnce, Preload.step. intros Hinv.
  destruct s as [caller|codec|caller].
  - destruct (Preload.activation caller (Preload.calls st)); [discriminate|].
    destruct (Preload.zstdPromise st) eqn:Hp; intros [= <-]; simpl.
    + exact Hinv.
    + now rewrite Hinv.
  - destruct (Preload.zstdPromise st) as [[|c]|]; try discriminate.
    intros [= <-]. exact Hinv.
  - destruct (Preload.activation caller (Preload.calls st)) as [[|r]|];
      try discriminate.
    destruct (Preload.zstdPromise st) as [[|c]|] eqn:Hp; try discriminate.
    intros [= <-]. simpl. exact Hinv.
Qed.

Lemma exec_initialisedOnce (schedule : list (Preload.Step Codec)) :
  forall st st' : Preload.State Codec,
    initialisedOnce st -> Preload.exec st schedule = Some st' -> initialisedOnce st'.
Proof.
  induction schedule as [|s schedule IH]; intros st st' Hinv; simpl.
  - now intros [= <-].
  - destruct (Preload.step st s) as [st1|] eqn:Hstep; [|discriminate].
    apply IH. exact (@step_initialisedOnce st st1 s Hinv Hstep).
Qed.

(** X3: under every schedule of calls of [preloadZstd], deliveries of
    the codec and resumptions, [ZstdCodec.run] is invoked at most
    once. *)
Lemma codec_initialised_at_most_once (schedule : list (Preload.Step Codec))
  (st : Preload.State Codec) :
  Preload.exec Preload.initial schedule = Some st -> (Preload.runs st <= 1)%nat.
Proof.
  intros Hexec.
  assert (Hinv : initialisedOnce st)
    by (apply (@exec_initialisedOnce schedule Preload.initial st); [reflexivity | exact Hexec]).
  unfold initialisedOnce in Hinv. destruct (Preload.zstdPromise st); lia.
Qed.

(** A call made after [zstdPromise] was set returns the current value
    of [zstd] at once, [undefined] as long as the first call has not
    resumed. *)
Lemma call_after_first_returns_zstd (st : Preload.State Codec) (caller : nat)
  (p : Preload.Promise Codec) :
  Preload.zstdPromise st = Some p ->
  Preload.activation caller (Preload.calls st) = None ->
  exists st',
    Preload.step st (Preload.Call caller) = Some st'
    /\ Preload.calls st' = Preload.calls st ++ [(caller, Preload.Returned (Preload.zstd st))]
    /\ Preload.runs st' = Preload.runs st.
Proof.
  intros Hp Hnew. unfold Preload.step. rewrite Hnew, Hp.
  eexists. repeat split; reflexivity.
Qed.

End PreloadFacts.

(** C4: a first call of [preloadZstd] starts the initialisation and
    suspends; a second call arrives while the first is suspended; the
    codec then becomes ready and the first call resumes. The codec was
    initialised once, the first call returned it, and the second call
    had returned [undefined]. *)
Theorem call_during_initialisation_returns_undefined (Codec : Type) (codec : Codec) :
  Preload.exec Preload.initial
    [Preload.Call 0; Preload.Call 1; Preload.CodecReady codec; Preload.Resume 0]
  = Some {| Preload.zstdPromise := Some (Preload.Resolved codec);
            Preload.zstd := Some codec;
            Preload.runs := 1;
            Preload.calls := [(0, Preload.Returned (Some codec));
                              (1, Preload.Returned None)] |}.
Proof.
  reflexivity.
Qed.

(** A run of [loadData] whose [preloadZstd] returned [undefined]
    reports a TypeError, whatever the bytes are. *)
Example undefined_codec_is_a_TypeError :
  Zstd.published Samples.rejectAll Samples.bothCallbacks
    {| Zstd.fetch := Ok {| Zstd.arrayBuffer := Ok [40; 181; 47; 253]%N |};
       Zstd.load := fun _ => Throw (Err "not a Parquet file");
       Zstd.preloadZstd := None;
       Zstd.teardown := None |}
  = [Zstd.SetError Zstd.UndefinedCodecError; Zstd.OnError Zstd.UndefinedCodecError].
Proof. reflexivity. Qed.

(** * Further properties of the code *)

(** ** Where the chunks lie *)

Section ChunkPositions.

Import Chunks.

Variable size : N.
Hypothesis size_pos : (0 < size)%N.

Lemma chunkLoop_positions (fuel : nat) :
  forall (a : list byte) (i : N),
    (i <= N.of_nat (List.length a))%N ->
    (List.length a - N.to_nat i < fuel)%nat ->
    chunkLoop fuel size a i
    = map (chunkAt size a i)
          (seq 0 (S (N.to_nat ((N.of_nat (List.length a) - i) / size)))).
Proof.
  induction fuel as [|fuel IH]; intros a i Hi Hfuel; [lia|].
  cbn [chunkLoop seq map].
  destruct (N.leb_spec i (N.of_nat (List.length a))) as [_|Hc]; [|lia].
  f_equal.
  - unfold chunkAt. f_equal; lia.
  - rewrite <- seq_shift, map_map.
    destruct (N.leb_spec (i + size) (N.of_nat (List.length a))) as [Hle|Hgt].
    + rewrite IH by lia.
      replace (N.of_nat (List.length a) - i)%N
        with (N.of_nat (List.length a) - (i + size) + 1 * size)%N by lia.
      rewrite N.div_add by lia.
      replace (N.to_nat ((N.of_nat (List.length a) - (i + size)) / size + 1))
        with (S (N.to_nat ((N.of_nat (List.length a) - (i + size)) / size))) by lia.
      apply map_ext. intros k. unfold chunkAt. f_equal; lia.
    + rewrite chunkLoop_past_end by lia.
      rewrite N.div_small by lia. reflexivity.
Qed.

End ChunkPositions.

(** X4: the chunk sequence of a buffer of [n] bytes has [n / 1000000
    + 1] chunks, and its [k]-th chunk is the window
    [subarray(k * 1000000, (k + 1) * 1000000)] of the buffer. *)
Theorem chunks_are_consecutive_windows (input : list byte) :
  Chunks.chunks input
  = map (fun k => Chunks.subarray input (N.of_nat k * 1000000)
                    (N.of_nat k * 1000000 + 1000000))
        (seq 0 (S (N.to_nat (N.of_nat (List.length input) / 1000000))))
  /\ List.length (Chunks.chunks input)
     = S (N.to_nat (N.of_nat (List.length input) / 1000000)).
Proof.
  assert (H : Chunks.chunks input
              = map (chunkAt Chunks.CHUNK_SIZE input 0)
                    (seq 0 (S (N.to_nat ((N.of_nat (List.length input) - 0)
                                         / Chunks.CHUNK_SIZE))))).
  { unfold Chunks.chunks, Chunks.chunksOf.
    apply chunkLoop_positions; [exact CHUNK_SIZE_pos | lia | simpl; lia]. }
  rewrite N.sub_0_r in H. split.
  - rewrite H. apply map_ext. intros k. unfold chunkAt. reflexivity.
  - rewrite H, length_map, length_seq. reflexivity.
Qed.

(** ** Resolution of the geometry column *)

Lemma findGeometryColumn_found (s : Zstd.Schema) (c : string) :
  Zstd.findGeometryColumn (Some s) = Some c ->
  In c Zstd.geometryColumns /\ Zstd.hasField s c = true.
Proof. apply find_some. Qed.

Lemma findGeometryColumn_cases (s : Zstd.Schema) :
  Zstd.findGeometryColumn (Some s)
  = if Zstd.hasField s "geometry" then Some "geometry"
    else if Zstd.hasField s "geom" then Some "geom"
    else if Zstd.hasField s "the_geom" then Some "the_geom"
    else if Zstd.hasField s "wkb_geometry" then Some "wkb_geometry"
    else None.
Proof. reflexivity. Qed.

Lemma hasField_In (s : Zstd.Schema) (c : string) :
  Zstd.hasField s c = true <-> In c (map Zstd.name (Zstd.fields s)).
Proof.
  unfold Zstd.hasField. rewrite existsb_exists, in_map_iff. split.
  - intros (f & Hin & Heq). apply String.eqb_eq in Heq. now exists f.
  - intros (f & Heq & Hin). exists f. split; [exact Hin|]. now apply String.eqb_eq.
Qed.

(** X5: the geometry column chosen depends only on which names occur
    among the schema's fields, not on their order or number: two
    schemas with the same set of field names resolve alike. The
    column chosen is a candidate that names a field, no candidate
    listed before it names one, and none is chosen only when no
    candidate names a field. *)
Theorem geometry_column_depends_on_names_only (s1 s2 : Zstd.Schema) :
  ((forall c, In c (map Zstd.name (Zstd.fields s1))
              <-> In c (map Zstd.name (Zstd.fields s2))) ->
   Zstd.findGeometryColumn (Some s1) = Zstd.findGeometryColumn (Some s2))
  /\ (forall c, Zstd.findGeometryColumn (Some s1) = Some c ->
                exists before after,
                  Zstd.geometryColumns = before ++ c :: after
                  /\ In c (map Zstd.name (Zstd.fields s1))
                  /\ forall c', In c' before ->
                                ~ In c' (map Zstd.name (Zstd.fields s1)))
  /\ (Zstd.findGeometryColumn (Some s1) = None ->
      forall c, In c Zstd.geometryColumns ->
                ~ In c (map Zstd.name (Zstd.fields s1))).
Proof.
  split; [|split].
  - intros Hsame.
    assert (Heq : forall c, Zstd.hasField s1 c = Zstd.hasField s2 c).
    { intros c. apply eq_true_iff_eq. rewrite !hasField_In. apply Hsame. }
    rewrite !findGeometryColumn_cases, !Heq. reflexivity.
  - intros c. rewrite findGeometryColumn_cases.
    destruct (Zstd.hasField s1 "geometry") eqn:H1;
      [|destruct (Zstd.hasField s1 "geom") eqn:H2;
        [|destruct (Zstd.hasField s1 "the_geom") eqn:H3;
          [|destruct (Zstd.hasField s1 "wkb_geometry") eqn:H4; [|discriminate]]]];
      intros [= <-].
    + exists [], ["geom"; "the_geom"; "wkb_geometry"].
      split; [reflexivity|]. split; [now apply hasField_In|]. intros c' [].
    + exists ["geometry"], ["the_geom"; "wkb_geometry"].
      split; [reflexivity|]. split; [now apply hasField_In|].
      intros c' [<-|[]]. rewrite <- hasField_In. congruence.
    + exists ["geometry"; "geom"], ["wkb_geometry"].
      split; [reflexivity|]. split; [now apply hasField_In|].
      intros c' [<-|[<-|[]]]; rewrite <- hasField_In; congruence.
    + exists ["geometry"; "geom"; "the_geom"], [].
      split; [reflexivity|]. split; [now apply hasField_In|].
      intros c' [<-|[<-|[<-|[]]]]; rewrite <- hasField_In; congruence.
  - intros Hnone c Hin. rewrite <- hasField_In.
    pose proof (find_none _ _ Hnone c Hin) as Hf. simpl in Hf. congruence.
Qed.

(** Two schemas that list [geom] and [wkb_geometry] in opposite orders,
    one with a further field. *)
Lemma geometry_column_depends_on_names_only_witness :
  Zstd.findGeometryColumn (Some (Samples.schemaWith ["wkb_geometry"; "geom"; "geom"]))
  = Zstd.findGeometryColumn (Some (Samples.schemaWith ["geom"; "wkb_geometry"]))
  /\ (forall c, In c Zstd.geometryColumns ->
                ~ In c (map Zstd.name (Zstd.fields (Samples.schemaWith ["id"])))).
Proof.
  split.
  - apply (proj1 (geometry_column_depends_on_names_only
                    (Samples.schemaWith ["wkb_geometry"; "geom"; "geom"])
                    (Samples.schemaWith ["geom"; "wkb_geometry"]))).
    intros c. simpl. tauto.
  - apply (proj2 (proj2 (geometry_column_depends_on_names_only
                           (Samples.schemaWith ["id"]) (Samples.schemaWith ["id"])))).
    reflexivity.
Defined.

(** ** Rows and their features *)

Lemma collect_app (body : Object -> option Zstd.Feature) (rows1 rows2 : list Object) :
  Zstd.collect body (rows1 ++ rows2)
  = Zstd.collect body rows1 ++ Zstd.collect body rows2.
Proof.
  induction rows1 as [|row rows1 IH]; simpl; [reflexivity|].
  destruct (body row); simpl; now rewrite IH.
Qed.

Lemma collect_length (body : Object -> option Zstd.Feature) (rows : list Object) :
  (List.length (Zstd.collect body rows) <= List.length rows)%nat.
Proof.
  induction rows as [|row rows IH]; simpl; [lia|].
  destruct (body row); simpl; lia.
Qed.

(** X6: a row that yields no feature leaves the outcome exactly as if
    the file did not hold the row, in the geometry loop and in the
    latitude/longitude loop alike; and there are never more features
    than rows. *)
Theorem dropped_row_is_as_if_absent
  (D : Zstd.Decoders) (schema : option Zstd.Schema) (row : Object)
  (before after : list Object) :
  (forall geometryColumn,
      Zstd.findGeometryColumn schema = Some geometryColumn ->
      Zstd.processRow D geometryColumn row = None ->
      Zstd.buildFeatures D (Zstd.Table schema (before ++ row :: after))
      = Zstd.buildFeatures D (Zstd.Table schema (before ++ after)))
  /\ (Zstd.findGeometryColumn schema = None ->
      Zstd.processLatLonRow D row = None ->
      Zstd.buildFeatures D (Zstd.Table schema (before ++ row :: after))
      = Zstd.buildFeatures D (Zstd.Table schema (before ++ after)))
  /\ (forall fs,
         Zstd.buildFeatures D (Zstd.Table schema (before ++ row :: after)) = Ok fs ->
         (1 <= List.length fs <= List.length (before ++ row :: after))%nat).
Proof.
  split; [|split].
  - intros col Hcol Hrow. unfold Zstd.buildFeatures. simpl. rewrite Hcol.
    rewrite !collect_app. simpl. rewrite Hrow. reflexivity.
  - intros Hcol Hrow. unfold Zstd.buildFeatures. simpl. rewrite Hcol.
    rewrite !collect_app. simpl. rewrite Hrow. reflexivity.
  - intros fs Hfs.
    destruct (buildFeatures_Ok D _ Hfs) as [Hne [(col & _ & ->)|[_ ->]]];
      (split; [|apply collect_length]);
      match goal with
      | |- (1 <= List.length ?l)%nat => destruct l; [congruence | simpl; lia]
      end.
Qed.

(** The hexadecimal row between two rows of coordinates. *)
Lemma dropped_row_is_as_if_absent_witness :
  Zstd.buildFeatures Samples.rejectAll
    (Zstd.Table (Some (Samples.schemaWith ["geom"]))
       ([Samples.textRow] ++ [("geom", VString "00ff")] :: [Samples.textRow]))
  = Zstd.buildFeatures Samples.rejectAll
      (Zstd.Table (Some (Samples.schemaWith ["geom"]))
         ([Samples.textRow] ++ [Samples.textRow])).
Proof.
  apply (proj1 (dropped_row_is_as_if_absent Samples.rejectAll
                  (Some (Samples.schemaWith ["geom"])) [("geom", VString "00ff")]
                  [Samples.textRow] [Samples.textRow]) "geom");
    reflexivity.
Defined.

(** X7: an explicit geometry takes precedence over the coordinates of
    the row. A typed array that [wkbToGeojson] decodes to a truthy
    value, a non-empty text that is not hexadecimal and parses to a
    truthy value
    with a type and coordinates, and an object with a type and
    coordinates each yield a feature with that very geometry, whatever
    the latitude and longitude of the row are; the properties are the
    row with the geometry column blanked. *)
Theorem explicit_geometry_wins (D : Zstd.Decoders) (geometryColumn : string)
  (row : Object) :
  (forall bs g,
      lookup geometryColumn row = VBytes bs ->
      Zstd.wkbToGeojson D bs = Ok g -> truthy g = true ->
      Zstd.processRow D geometryColumn row
      = Some {| Zstd.geometry := g;
                Zstd.properties := assign geometryColumn VUndefined row |})
  /\ (forall s parsed,
         lookup geometryColumn row = VString s ->
         s <> EmptyString ->
         Zstd.looksLikeHex s = false ->
         Zstd.JSON_parse D s = Ok parsed ->
         truthy parsed = true -> tagged parsed ->
         Zstd.processRow D geometryColumn row
         = Some {| Zstd.geometry := parsed;
                   Zstd.properties := assign geometryColumn VUndefined row |})
  /\ (forall o,
         lookup geometryColumn row = VObject o ->
         tagged (VObject o) ->
         Zstd.processRow D geometryColumn row
         = Some {| Zstd.geometry := VObject o;
                   Zstd.properties := assign geometryColumn VUndefined row |}).
Proof.
  split; [|split].
  - intros bs g Hraw Hwkb Hg. unfold Zstd.processRow. rewrite Hraw. simpl.
    unfold Zstd.decodeGeometry, Zstd.caseLatLon, Zstd.caseObject, Zstd.caseJson,
      Zstd.caseWkb.
    rewrite Hwkb. simpl. rewrite Hg. simpl. rewrite Hg. simpl. rewrite Hg.
    reflexivity.
  - intros s parsed Hraw Hne Hhex Hparse Hp [Ht Hc]. unfold Zstd.processRow.
    rewrite Hraw.
    assert (Hs : truthy (VString s) = true)
      by (destruct s; [congruence | reflexivity]).
    rewrite Hs. simpl negb. cbv iota.
    assert (Hdec : Zstd.decodeGeometry D row (VString s) = parsed).
    { unfold Zstd.decodeGeometry, Zstd.caseLatLon, Zstd.caseObject, Zstd.caseJson,
        Zstd.caseWkb.
      simpl. rewrite Hhex. simpl. rewrite Hparse, Hp, Ht, Hc. simpl.
      rewrite Hp. simpl. rewrite Hp. reflexivity. }
    rewrite Hdec, Hp. reflexivity.
  - intros o Hraw [Ht Hc]. unfold Zstd.processRow. rewrite Hraw. simpl.
    unfold Zstd.decodeGeometry, Zstd.caseLatLon, Zstd.caseObject, Zstd.caseJson,
      Zstd.caseWkb.
    simpl in Ht, Hc. simpl. rewrite Ht, Hc. reflexivity.
Qed.

(** A row with WKB bytes and coordinates and a row with geometry text
    and coordinates, with decoders that accept them, and the row with
    a GeoJSON point. *)
Lemma explicit_geometry_wins_witness :
  Zstd.processRow Samples.acceptAll "geometry" Samples.wkbRow
  = Some {| Zstd.geometry := Samples.point 0 0;
            Zstd.properties := assign "geometry" VUndefined Samples.wkbRow |}
  /\ Zstd.processRow Samples.acceptAll "geom" Samples.textRow
     = Some {| Zstd.geometry := Samples.point 0 0;
               Zstd.properties := assign "geom" VUndefined Samples.textRow |}
  /\ Zstd.processRow Samples.rejectAll "geometry" Samples.pointRow
     = Some {| Zstd.geometry := Samples.point 1 2;
               Zstd.properties := assign "geometry" VUndefined Samples.pointRow |}.
Proof.
  split; [|split].
  - apply (proj1 (explicit_geometry_wins Samples.acceptAll "geometry" Samples.wkbRow)
             [1; 1; 0; 0; 0]%N (Samples.point 0 0)); reflexivity.
  - apply (proj1 (proj2 (explicit_geometry_wins Samples.acceptAll "geom"
                           Samples.textRow))
             "POINT (1 2)" (Samples.point 0 0));
      try reflexivity; [discriminate | split; reflexivity].
  - apply (proj2 (proj2 (explicit_geometry_wins Samples.rejectAll "geometry"
                           Samples.pointRow))
             [("type", VString "Point");
              ("coordinates", VArray [VNumber 1; VNumber 2])]).
    + reflexivity.
    + split; reflexivity.
Defined.

Lemma truthy_lookup_hasKey (k : string) (o : Object) :
  truthy (lookup k o) = true -> hasKey k o = true.
Proof.
  induction o as [|[k' v] o IH]; simpl; [discriminate|].
  destruct (String.eqb k' k); simpl; [reflexivity | exact IH].
Qed.

Lemma assign_keys (k : string) (v : Value) (o : Object) :
  hasKey k o = true -> map fst (assign k v o) = map fst o.
Proof.
  induction o as [|[k' v'] o IH]; simpl; [discriminate|].
  destruct (String.eqb k' k); simpl; [reflexivity|].
  intros H. now rewrite IH.
Qed.

(** X8: the properties of a feature of the geometry loop have exactly
    the keys of its row, the geometry column included, in the row's
    order: blanking the geometry neither drops, adds nor moves a
    key. *)
Theorem properties_keep_the_row_keys (D : Zstd.Decoders) (geometryColumn : string)
  (row : Object) (f : Zstd.Feature) :
  Zstd.processRow D geometryColumn row = Some f ->
  map fst (Zstd.properties f) = map fst row
  /\ hasKey geometryColumn (Zstd.properties f) = true.
Proof.
  unfold Zstd.processRow.
  destruct (truthy (lookup geometryColumn row)) eqn:Hraw; simpl; [|discriminate].
  destruct (truthy (Zstd.decodeGeometry D row (lookup geometryColumn row)));
    [|discriminate].
  intros [= <-]. simpl.
  pose proof (truthy_lookup_hasKey _ _ Hraw) as Hkey.
  split; [now apply assign_keys|].
  clear Hraw. induction row as [|[k v] row IH]; simpl in *; [discriminate|].
  destruct (String.eqb k geometryColumn) eqn:E; simpl; rewrite E; simpl;
    [reflexivity | exact (IH Hkey)].
Qed.

Lemma properties_keep_the_row_keys_witness :
  map fst (Zstd.properties
             {| Zstd.geometry := Samples.point 1 2;
                Zstd.properties := assign "geometry" VUndefined Samples.pointRow |})
  = ["geometry"; "name"]
  /\ hasKey "geometry"
       (Zstd.properties
          {| Zstd.geometry := Samples.point 1 2;
             Zstd.properties := assign "geometry" VUndefined Samples.pointRow |})
     = true.
Proof.
  apply (@properties_keep_the_row_keys Samples.rejectAll "geometry" Samples.pointRow).
  reflexivity.
Defined.

(** ** Outcomes of a run of [loadData] *)

Lemma published_shape (D : Zstd.Decoders) (P : Zstd.Props) (W : Zstd.World) :
  Zstd.published D P W = []
  \/ (exists geojson,
         Zstd.published D P W
         = Zstd.SetData geojson :: (if Zstd.onLoad P then [Zstd.OnLoad] else []))
  \/ (exists e,
         Zstd.published D P W
         = Zstd.SetError e :: (if Zstd.onError P then [Zstd.OnError e] else [])).
Proof.
  unfold Zstd.published, Zstd.trace, Zstd.loadData, Zstd.directAttempt,
    Zstd.processParquetData, Zstd.loadParquet, Zstd.decompressData,
    Zstd.whenGiven, Zstd.tryCatch, Zstd.bind, Zstd.lift, Zstd.emit, Zstd.ret,
    Zstd.throw.
  simpl. repeat (destruct_scrutinee; simpl); eauto.
Qed.

Lemma mounted_run_publishes (D : Zstd.Decoders) (P : Zstd.Props) (W : Zstd.World) :
  Zstd.teardown W = None -> Zstd.published D P W <> [].
Proof.
  unfold Zstd.published, Zstd.trace, Zstd.loadData, Zstd.directAttempt,
    Zstd.processParquetData, Zstd.loadParquet, Zstd.decompressData,
    Zstd.whenGiven, Zstd.tryCatch, Zstd.bind, Zstd.lift, Zstd.emit, Zstd.ret,
    Zstd.throw.
  intros ->. simpl. repeat (destruct_scrutinee; simpl); discriminate.
Qed.

(** X9: a run publishes a feature collection or an error, never both
    and neither twice: what it publishes is nothing, or [setData]
    followed by [onLoad] when that callback was given, or [setError]
    followed by [onError] when that one was given; and a run of a
    component that stays mounted never publishes nothing. *)
Theorem run_publishes_data_or_error (D : Zstd.Decoders) (P : Zstd.Props)
  (W : Zstd.World) :
  (Zstd.published D P W = []
   \/ (exists geojson,
          Zstd.published D P W
          = Zstd.SetData geojson :: (if Zstd.onLoad P then [Zstd.OnLoad] else []))
   \/ (exists e,
          Zstd.published D P W
          = Zstd.SetError e :: (if Zstd.onError P then [Zstd.OnError e] else [])))
  /\ (Zstd.teardown W = None -> Zstd.published D P W <> []).
Proof.
  split; [apply published_shape | apply mounted_run_publishes].
Qed.

Lemma run_publishes_data_or_error_witness :
  Zstd.published Samples.rejectAll Samples.bothCallbacks Worlds.direct <> [].
Proof.
  apply (proj2 (run_publishes_data_or_error Samples.rejectAll Samples.bothCallbacks
                  Worlds.direct)).
  reflexivity.
Defined.






(** A world in which a feature collection is published. *)
Lemma success_is_published_only_when_mounted_witness :
  Zstd.isMountedAfter (Zstd.teardown Worlds.direct) Zstd.AwDirectLoad = true.
Proof.
  apply (@success_is_published_only_when_mounted Samples.rejectAll
           Samples.bothCallbacks Worlds.direct
           {| Zstd.features :=
                [{| Zstd.geometry := Samples.point (-74.0) 40.7;
                    Zstd.properties := Samples.latLonRow |}] |}).
  simpl. auto 6.
Defined.

(** ** What the component renders *)

Lemma applyEvents_error_stays (evs : list Zstd.Event) :
  forall (st : View.State) (e : Error),
    View.error st = Some e ->
    exists e', View.error (View.applyEvents st evs) = Some e'.
Proof.
  unfold View.applyEvents.
  induction evs as [|ev evs IH]; intros st e He; simpl; [now exists e|].
  destruct ev; simpl; (eapply IH; simpl; first [exact He | reflexivity]).
Qed.

(** X12: no event of a run clears the error state: once an error was
    set the component renders the error line after any further
    events, a later [setData] included; the data set afterwards is
    not shown. *)
Theorem error_is_never_cleared (st : View.State) (e : Error)
  (evs : list Zstd.Event) :
  View.error st = Some e ->
  exists message, View.render (View.applyEvents st evs) = View.ErrorLine message.
Proof.
  intros He. destruct (applyEvents_error_stays evs st He) as [[m] Hm].
  exists m. unfold View.render. rewrite Hm. reflexivity.
Qed.

(** A failed run followed by a successful one. *)
Lemma error_is_never_cleared_witness :
  exists message,
    View.render
      (View.applyEvents
         {| View.data := None; View.error := Some Zstd.NoGeometryError |}
         (Zstd.published Samples.rejectAll Samples.bothCallbacks Worlds.direct))
    = View.ErrorLine message.
Proof.
  apply (@error_is_never_cleared
           {| View.data := None; View.error := Some Zstd.NoGeometryError |}
           Zstd.NoGeometryError).
  reflexivity.
Defined.

Lemma applyEvents_published (evs : list Zstd.Event) :
  forall st : View.State,
    View.applyEvents st evs = View.applyEvents st (filter Zstd.isPublication evs).
Proof.
  unfold View.applyEvents.
  induction evs as [|ev evs IH]; intros st; simpl; [reflexivity|].
  destruct ev; simpl; apply IH.
Qed.

(** X13: what a component in its initial state renders once a run of
    [loadData] has ended: the map over the published collection, the
    line with the message of the published error, or, only when the
    component was torn down during the run, the loading line. *)
Theorem view_after_a_run (D : Zstd.Decoders) (P : Zstd.Props) (W : Zstd.World) :
  match View.render (View.applyEvents View.initial (Zstd.trace D P W)) with
  | View.MapWithLayer geojson => In (Zstd.SetData geojson) (Zstd.published D P W)
  | View.ErrorLine message => In (Zstd.SetError (Err message)) (Zstd.published D P W)
  | View.LoadingLine => Zstd.teardown W <> None
  end.
Proof.
  rewrite applyEvents_published. fold (Zstd.published D P W).
  pose proof (mounted_run_publishes D P W) as Hmounted.
  destruct (published_shape D P W) as [H|[(g & H)|([m] & H)]];
    rewrite H in *; unfold View.applyEvents, View.render.
  - simpl. intros Htd. now apply Hmounted.
  - destruct (Zstd.onLoad P); simpl; now left.
  - destruct (Zstd.onError P); simpl; now left.
Qed.

(** ** The codec that calls of [preloadZstd] return *)

Section PreloadConsistency.

Variable Codec : Type.

Lemma activation_app (caller : nat) (cs ds : list (nat * Preload.Activation Codec)) :
  Preload.activation caller (cs ++ ds)
  = match Preload.activation caller cs with
    | Some a => Some a
    | None => Preload.activation caller ds
    end.
Proof.
  induction cs as [|[c a] cs IH]; simpl; [reflexivity|].
  destruct (Nat.eqb c caller); [reflexivity | exact IH].
Qed.

Lemma activation_setActivation (x y : nat) (a : Preload.Activation Codec)
  (cs : list (nat * Preload.Activation Codec)) :
  Preload.activation x (Preload.setActivation y a cs)
  = if Nat.eqb y x
    then match Preload.activation y cs with Some _ => Some a | None => None end
    else Preload.activation x cs.
Proof.
  induction cs as [|[c a'] cs IH]; simpl.
  - now destruct (Nat.eqb y x).
  - destruct (Nat.eqb_spec c y) as [->|Hcy]; simpl.
    + destruct (Nat.eqb y x); reflexivity.
    + destruct (Nat.eqb_spec c x) as [->|Hcx].
      * destruct (Nat.eqb_spec y x); [congruence | reflexivity].
      * exact IH.
Qed.

Lemma step_consistent (st st' : Preload.State Codec) (s : Preload.Step Codec) :
  consistent st -> Preload.step st s = Some st' -> consistent st'.
Proof.
  intros [Hz Hc]. unfold Preload.step.
  destruct s as [caller|codec|caller].
  - destruct (Preload.activation caller (Preload.calls st)) eqn:Hnew;
      [discriminate|].
    destruct (Preload.zstdPromise st) as [p|] eqn:Hp; intros [= <-];
      split; simpl.
    + exact Hz.
    + intros x c. rewrite activation_app. simpl.
      destruct (Preload.activation x (Preload.calls st)) eqn:Hx.
      * intros [= ->]. now apply (Hc x).
      * destruct (Nat.eqb caller x); [|discriminate]. now intros [= ->].
    + intros c Hc'. specialize (Hz c Hc'). congruence.
    + intros x c. rewrite activation_app. simpl.
      destruct (Preload.activation x (Preload.calls st)) eqn:Hx.
      * intros [= ->]. now apply (Hc x).
      * destruct (Nat.eqb caller x); discriminate.
  - destruct (Preload.zstdPromise st) as [[|c0]|] eqn:Hp; try discriminate.
    intros [= <-]. split; simpl.
    + intros c Hc'. specialize (Hz c Hc'). congruence.
    + exact Hc.
  - destruct (Preload.activation caller (Preload.calls st)) as [[|r]|] eqn:Ha;
      try discriminate.
    destruct (Preload.zstdPromise st) as [[|c0]|] eqn:Hp; try discriminate.
    intros [= <-]. split; simpl.
    + now intros c [= ->].
    + intros x c. rewrite activation_setActivation, Ha.
      destruct (Nat.eqb caller x).
      * now intros [= ->].
      * intros Hx. specialize (Hc x c Hx). specialize (Hz c Hc). congruence.
Qed.

Lemma exec_consistent (schedule : list (Preload.Step Codec)) :
  forall st st' : Preload.State Codec,
    consistent st -> Preload.exec st schedule = Some st' -> consistent st'.
Proof.
  induction schedule as [|s schedule IH]; intros st st' Hinv; simpl.
  - now intros [= <-].
  - destruct (Preload.step st s) as [st1|] eqn:Hstep; [|discriminate].
    apply IH. exact (@step_consistent st st1 s Hinv Hstep).
Qed.

Lemma initial_consistent : consistent (@Preload.initial Codec).
Proof. split; simpl; discriminate. Qed.

End PreloadConsistency.

(** X14: under every schedule, a call of [preloadZstd] that returned a
    codec returned the codec the one initialisation delivered (so no
    two calls return different codecs), and once the first call has
    resumed every new call returns that codec at once. *)
Theorem returned_codec_is_the_initialised_one (Codec : Type)
  (schedule : list (Preload.Step Codec)) (st : Preload.State Codec) :
  Preload.exec Preload.initial schedule = Some st ->
  (forall caller c,
      Preload.activation caller (Preload.calls st)
      = Some (Preload.Returned (Some c)) ->
      Preload.zstdPromise st = Some (Preload.Resolved c))
  /\ (forall caller c st',
         Preload.zstd st = Some c ->
         Preload.step st (Preload.Call caller) = Some st' ->
         Preload.activation caller (Preload.calls st')
         = Some (Preload.Returned (Some c))).
Proof.
  intros Hexec.
  destruct (@exec_consistent Codec schedule Preload.initial st
              (@initial_consistent Codec) Hexec) as [Hz Hc].
  split.
  - intros caller c Ha. apply Hz. exact (Hc caller c Ha).
  - intros caller c st' Hzstd. unfold Preload.step.
    destruct (Preload.activation caller (Preload.calls st)) eqn:Hnew;
      [discriminate|].
    rewrite (Hz c Hzstd). intros [= <-]. simpl.
    rewrite activation_app, Hnew. simpl. rewrite Nat.eqb_refl, Hzstd. reflexivity.
Qed.

(** Two calls, the second after the first has resumed. *)
Lemma returned_codec_is_the_initialised_one_witness :
  Preload.zstdPromise
    {| Preload.zstdPromise := Some (Preload.Resolved 7);
       Preload.zstd := Some 7;
       Preload.runs := 1;
       Preload.calls := [(0, Preload.Returned (Some 7));
                         (1, Preload.Returned (Some 7))] |}
  = Some (Preload.Resolved 7).
Proof.
  apply (proj1 (@returned_codec_is_the_initialised_one nat
                  [Preload.Call 0; Preload.CodecReady 7; Preload.Resume 0;
                   Preload.Call 1] _ eq_refl) 1 7).
  reflexivity.
Defined.

(** The schedule of two overlapping calls. *)
Lemma codec_initialised_at_most_once_witness :
  (Preload.runs
     {| Preload.zstdPromise := Some (Preload.Resolved 7);
        Preload.zstd := Some 7;
        Preload.runs := 1;
        Preload.calls := [(0, Preload.Returned (Some 7));
                          (1, Preload.Returned None)] |} <= 1)%nat.
Proof.
  apply (@codec_initialised_at_most_once nat
           [Preload.Call 0; Preload.Call 1; Preload.CodecReady 7; Preload.Resume 0]).
  reflexivity.
Defined.

(** ** The [wkx] component: features, bounds and loading *)

Section WkxFacts.

Variable D : Wkx.Decoders.

Lemma extractFeature_geometry (row : Object) (f : Wkx.Feature) :
  Wkx.extractFeature D row = Some f ->
  truthy (Wkx.geometry f) = true
  /\ (exists bs, Wkx.parseWkb D bs = Ok (Wkx.geometry f))
  /\ (isBinary (lookup "geometry" row) = true
      \/ exists s, lookup "geometry" row = VString s).
Proof.
  unfold Wkx.extractFeature, Wkx.parseGeometry.
  destruct (truthy (lookup "geometry" row)); [|discriminate].
  destruct (lookup "geometry" row) as [| |b|x|s|bs|xs|o]; try discriminate.
  - destruct (Wkx.parseWkb D (Wkx.binaryBytes D s)) as [g|e] eqn:Hp; [|discriminate].
    destruct (truthy g) eqn:Hg; [|discriminate].
    simpl. intros [= <-]. simpl. split; [exact Hg|].
    split; [eexists; exact Hp|]. right. now exists s.
  - destruct (Wkx.parseWkb D bs) as [g|e] eqn:Hp; [|discriminate].
    destruct (truthy g) eqn:Hg; [|discriminate].
    simpl. intros [= <-]. simpl. split; [exact Hg|].
    split; [eexists; exact Hp|]. now left.
Qed.

Lemma extractFeatures_Forall (Q : Wkx.Feature -> Prop) (rows : list Object) :
  (forall row f, In row rows -> Wkx.extractFeature D row = Some f -> Q f) ->
  Forall Q (Wkx.extractFeatures D rows).
Proof.
  induction rows as [|row rows IH]; intros Hbody; simpl; [constructor|].
  destruct (Wkx.extractFeature D row) as [f|] eqn:Hf.
  - constructor.
    + apply (Hbody row f); [now left | exact Hf].
    + apply IH. intros r g Hin. apply Hbody. now right.
  - apply IH. intros r g Hin. apply Hbody. now right.
Qed.

Lemma extractFeatures_length (rows : list Object) :
  (List.length (Wkx.extractFeatures D rows) <= List.length rows)%nat.
Proof.
  induction rows as [|row rows IH]; simpl; [lia|].
  destruct (Wkx.extractFeature D row); simpl; lia.
Qed.

Lemma truthy_notNullish (v : Value) : truthy v = true -> notNullish v = true.
Proof. destruct v; simpl; congruence. Qed.

End WkxFacts.

(** X15: every feature [extractFeatures] returns has a truthy geometry
    that the WKB parser returned; there are at most as many features
    as rows; and a row whose [geometry] is neither a typed array nor a
    text yields no feature, a GeoJSON object included. *)
Theorem wkx_features_come_from_the_parser (D : Wkx.Decoders) (rows : list Object) :
  Forall (fun f => truthy (Wkx.geometry f) = true
                   /\ exists bs, Wkx.parseWkb D bs = Ok (Wkx.geometry f))
         (Wkx.extractFeatures D rows)
  /\ (List.length (Wkx.extractFeatures D rows) <= List.length rows)%nat
  /\ (forall row,
         isBinary (lookup "geometry" row) = false ->
         (forall s, lookup "geometry" row <> VString s) ->
         Wkx.extractFeature D row = None).
Proof.
  split; [|split].
  - apply extractFeatures_Forall. intros row f _ Hf.
    destruct (extractFeature_geometry D row Hf) as (Hg & Hp & _). now split.
  - apply extractFeatures_length.
  - intros row Hbin Hstr.
    destruct (Wkx.extractFeature D row) as [f|] eqn:Hf; [|reflexivity].
    destruct (extractFeature_geometry D row Hf) as (_ & _ & [Hb|(s & Hs)]).
    + congruence.
    + now destruct (Hstr s).
Qed.

Lemma wkx_features_come_from_the_parser_witness :
  Wkx.extractFeature Samples.wkxDecoders Samples.pointRow = None.
Proof.
  apply (proj2 (proj2 (wkx_features_come_from_the_parser Samples.wkxDecoders
                         [Samples.pointRow]))).
  - reflexivity.
  - intros s. discriminate.
Defined.

Section BoundsFacts.

Variable toNumber : Value -> float.

Lemma visit_non_polygon (b : WkxLoad.Bounds) (f : Wkx.Feature) :
  notNullish (Wkx.geometry f) = true ->
  WkxLoad.isPolygon (Wkx.geometry f) = false ->
  WkxLoad.visit toNumber b f = Ok b.
Proof.
  intros Hnn Hpoly. unfold WkxLoad.visit, WkxLoad.member.
  rewrite Hpoly. destruct (Wkx.geometry f); simpl in *; congruence.
Qed.

Lemma visitAll_skips_non_polygons (features : list Wkx.Feature) :
  forall b : WkxLoad.Bounds,
    Forall (fun f => notNullish (Wkx.geometry f) = true) features ->
    WkxLoad.visitAll toNumber b features
    = WkxLoad.visitAll toNumber b
        (filter (fun f => WkxLoad.isPolygon (Wkx.geometry f)) features).
Proof.
  induction features as [|f features IH]; intros b Hall; simpl; [reflexivity|].
  inversion Hall as [|? ? Hf Hrest]; subst.
  destruct (WkxLoad.isPolygon (Wkx.geometry f)) eqn:Hpoly; simpl.
  - destruct (WkxLoad.visit toNumber b f); [now apply IH | reflexivity].
  - rewrite (visit_non_polygon b f Hf Hpoly). now apply IH.
Qed.

End BoundsFacts.

(** X16: [getBounds] looks at Polygon features only: on features whose
    geometries are neither [null] nor [undefined] its result is the
    one it has on the Polygon features among them, and when none is a
    Polygon (points, lines, multi-polygons) it is [null], so the view
    is not recentred. *)
Theorem getBounds_sees_polygons_only (toNumber : Value -> float)
  (features : list Wkx.Feature) :
  Forall (fun f => notNullish (Wkx.geometry f) = true) features ->
  WkxLoad.getBounds toNumber features
  = WkxLoad.getBounds toNumber
      (filter (fun f => WkxLoad.isPolygon (Wkx.geometry f)) features)
  /\ (Forall (fun f => WkxLoad.isPolygon (Wkx.geometry f) = false) features ->
      WkxLoad.getBounds toNumber features = Ok None).
Proof.
  intros Hall.
  assert (Heq : WkxLoad.getBounds toNumber features
                = WkxLoad.getBounds toNumber
                    (filter (fun f => WkxLoad.isPolygon (Wkx.geometry f)) features)).
  { unfold WkxLoad.getBounds. now rewrite (visitAll_skips_non_polygons toNumber). }
  split; [exact Heq|].
  intros Hnone. rewrite Heq.
  replace (filter (fun f => WkxLoad.isPolygon (Wkx.geometry f)) features)
    with (@nil Wkx.Feature); [reflexivity|].
  clear Heq Hall. induction features as [|f features IH]; simpl; [reflexivity|].
  inversion Hnone as [|? ? Hf Hrest]; subst. rewrite Hf. now apply IH.
Qed.

Lemma getBounds_sees_polygons_only_witness :
  WkxLoad.getBounds Samples.parseFloat
    [{| Wkx.geometry := Samples.point 1 2; Wkx.properties := [] |}]
  = Ok None.
Proof.
  apply (fun H => proj2 (@getBounds_sees_polygons_only Samples.parseFloat
                          [{| Wkx.geometry := Samples.point 1 2;
                              Wkx.properties := [] |}] H)).
  - repeat constructor.
  - repeat constructor.
Defined.

Example getBounds_triangle :
  WkxLoad.getBounds Samples.parseFloat
    [{| Wkx.geometry := Samples.point 9 9; Wkx.properties := [] |};
     {| Wkx.geometry := WkxSamples.triangle; Wkx.properties := [] |}]
  = Ok (Some {| WkxLoad.minX := 0; WkxLoad.minY := 0;
                WkxLoad.maxX := 2; WkxLoad.maxY := 3 |}).
Proof. reflexivity. Qed.

Example getBounds_null_geometry :
  WkxLoad.getBounds Samples.parseFloat
    [{| Wkx.geometry := VNull; Wkx.properties := [] |}]
  = Throw WkxLoad.NullMemberError.
Proof. reflexivity. Qed.



(** X18: in the [wkx] component a file whose rows yield no feature is
    not an error: a mounted component publishes the empty feature
    collection and fires [onLoad] with it, and the view state is left
    alone. *)
Theorem wkx_empty_collection_is_published (D : Wkx.Decoders)
  (toNumber : Value -> float) (P : WkxLoad.Props) (W : WkxLoad.World)
  (rows : list Object) :
  WkxLoad.load W = Ok (WkxLoad.Rows rows) ->
  WkxLoad.isMounted W = true ->
  Forall (fun row => truthy (lookup "geometry" row) = false) rows ->
  WkxLoad.loadParquetData D toNumber P W
  = WkxLoad.SetData {| Wkx.features := [] |}
      :: (if WkxLoad.onLoad P
          then [WkxLoad.OnLoad {| Wkx.features := [] |}] else []).
Proof.
  intros Hload Hm Hrows.
  assert (Hnone : Wkx.extractFeatures D rows = []).
  { clear Hload. induction rows as [|row rows IH]; simpl; [reflexivity|].
    inversion Hrows as [|? ? Hrow Hrest]; subst.
    unfold Wkx.extractFeature, Wkx.parseGeometry. rewrite Hrow. simpl.
    now apply IH. }
  unfold WkxLoad.loadParquetData, Wkx.processParquetData.
  rewrite Hload, Hm, Hnone. reflexivity.
Qed.

Lemma wkx_empty_collection_is_published_witness :
  WkxLoad.loadParquetData Samples.wkxDecoders Samples.parseFloat
    WkxSamples.bothCallbacks WkxSamples.noGeometry
  = [WkxLoad.SetData {| Wkx.features := [] |};
     WkxLoad.OnLoad {| Wkx.features := [] |}].
Proof.
  apply (@wkx_empty_collection_is_published Samples.wkxDecoders Samples.parseFloat
           WkxSamples.bothCallbacks WkxSamples.noGeometry
           [[("id", VString "a")]; Samples.latLonRow]).
  - reflexivity.
  - reflexivity.
  - repeat constructor.
Defined.

(** ** Errors of the fallback *)

(** X19: when the direct decode of the fetched bytes fails, its error
    is not what the run reports. If the codec rejects the chunks, the
    codec's error is reported and no second decode is made; if the
    codec resolves with [null], a TypeError is reported; if it
    returns bytes whose decode fails, the error of that second decode
    is reported. *)
Theorem fallback_error_is_reported (D : Zstd.Decoders) (P : Zstd.Props)
  (W : Zstd.World) (buffer : list byte) (e1 : Error) (codec : Zstd.Codec) :
  Zstd.fetch W = Ok {| Zstd.arrayBuffer := Ok buffer |} ->
  Zstd.load W buffer = Throw e1 ->
  Zstd.preloadZstd W = Some codec ->
  (forall e2,
      Zstd.decompressChunks codec (Chunks.chunks buffer) = Throw e2 ->
      Zstd.published D P W
      = Zstd.SetError e2 :: (if Zstd.onError P then [Zstd.OnError e2] else [])
      /\ filter Zstd.isLoad (Zstd.trace D P W) = [Zstd.CallLoad buffer])
  /\ (Zstd.decompressChunks codec (Chunks.chunks buffer) = Ok None ->
      Zstd.published D P W
      = Zstd.SetError Zstd.NullResultError
          :: (if Zstd.onError P then [Zstd.OnError Zstd.NullResultError] else []))
  /\ (forall out e2,
         Zstd.decompressChunks codec (Chunks.chunks buffer) = Ok (Some out) ->
         Zstd.load W out = Throw e2 ->
         Zstd.published D P W
         = Zstd.SetError e2 :: (if Zstd.onError P then [Zstd.OnError e2] else [])
         /\ filter Zstd.isLoad (Zstd.trace D P W)
            = [Zstd.CallLoad buffer; Zstd.CallLoad out]).
Proof.
  intros Hfetch Hload Hcodec. split; [|split].
  - intros e2 Hz. unfold Zstd.published.
    rewrite (@decompression_error_is_reported D P W buffer e1 e2 codec
               Hfetch Hload Hcodec Hz).
    destruct (Zstd.onError P); split; reflexivity.
  - intros Hz.
    unfold Zstd.published, Zstd.trace, Zstd.loadData, Zstd.directAttempt,
      Zstd.loadParquet, Zstd.decompressData.
    rewrite Hfetch. simpl. rewrite Hload, Hcodec. simpl. rewrite Hz. simpl.
    unfold Zstd.whenGiven. destruct (Zstd.onError P); reflexivity.
  - intros out e2 Hz Hload2. unfold Zstd.published.
    rewrite (@second_decode_error_is_reported D P W buffer out e1 e2 codec
               Hfetch Hload Hcodec Hz Hload2).
    destruct (Zstd.onError P); split; reflexivity.
Qed.

Lemma fallback_error_is_reported_witness :
  Zstd.published Samples.rejectAll Samples.bothCallbacks Worlds.corrupt
  = [Zstd.SetError (Err "Unknown frame descriptor");
     Zstd.OnError (Err "Unknown frame descriptor")]
  /\ filter Zstd.isLoad
       (Zstd.trace Samples.rejectAll Samples.bothCallbacks Worlds.corrupt)
     = [Zstd.CallLoad [60; 104; 116; 109; 108]%N].
Proof.
  apply (proj1 (@fallback_error_is_reported Samples.rejectAll Samples.bothCallbacks
                  Worlds.corrupt [60; 104; 116; 109; 108]%N
                  (Err "Invalid Parquet file")
                  {| Zstd.decompressChunks :=
                       fun _ => Throw (Err "Unknown frame descriptor") |}
                  eq_refl eq_refl eq_refl));
    reflexivity.
Defined.
